(** * devTogether: the welcome-mail backend (server.js, mensagem.js)

    A shallow embedding of the POST /send-welcome handler of server.js and
    of the template module it requires, with the properties of the
    validation / rendering / dispatch pipeline proved about it.

    JavaScript strings are sequences of UTF-16 code units; JSON values are
    an inductive type; the handler runs in a small writer-and-exception
    monad whose trace records console output and calls to the mail
    provider. *)

From Stdlib Require Import String Ascii DecimalString.
From Stdlib Require Import List Bool Arith ZArith NArith Lia.
Import ListNotations.

Set Implicit Arguments.
Set Warnings "-register-all".

(* ================================================================== *)
(** * Strings *)
(* ================================================================== *)

Module JsString.

(** A UTF-16 code unit. *)
Definition code_unit := N.

(** A JavaScript string value. *)
Definition jsstring := list code_unit.

Definition unit_eqb (a b : code_unit) : bool := N.eqb a b.

Fixpoint eqb (s t : jsstring) : bool :=
  match s, t with
  | [], [] => true
  | a :: s', b :: t' => unit_eqb a b && eqb s' t'
  | _, _ => false
  end.

(** Source literals are written as in the .js files (UTF-8 text) and
    decoded to code units: [decode need acc bs] reads UTF-8 with [need]
    continuation bytes outstanding. *)
Definition emit_point (cp : N) : jsstring :=
  if (cp <? 65536)%N then [cp]
  else [(55296 + (cp - 65536) / 1024)%N; (56320 + (cp - 65536) mod 1024)%N].

Fixpoint decode (need : nat) (acc : N) (bs : list N) : jsstring :=
  match bs with
  | [] => []
  | b :: bs' =>
      match need with
      | O =>
          if (b <? 128)%N then emit_point b ++ decode 0 0%N bs'
          else if (b <? 224)%N then decode 1 (b - 192)%N bs'
          else if (b <? 240)%N then decode 2 (b - 224)%N bs'
          else decode 3 (b - 240)%N bs'
      | S O => emit_point (acc * 64 + (b - 128))%N ++ decode 0 0%N bs'
      | S n => decode n (acc * 64 + (b - 128))%N bs'
      end
  end.

Definition js (s : string) : jsstring :=
  decode 0 0%N (List.map N_of_ascii (list_ascii_of_string s)).

(** The character U+0022, which a literal of this file cannot hold. *)
Definition dquote : jsstring := [34%N].

(** Line feed. *)
Definition LF : jsstring := [10%N].

(** [lines ls] is the text whose lines are [ls]. *)
Fixpoint lines (ls : list jsstring) : jsstring :=
  match ls with
  | [] => []
  | [l] => l
  | l :: ls' => l ++ LF ++ lines ls'
  end.

(** WhiteSpace and LineTerminator code points of ECMAScript: the set that
    [String.prototype.trim] strips and that the class [\s] matches. *)
Definition isWhiteSpace (c : code_unit) : bool :=
  ((9 <=? c) && (c <=? 13) || (c =? 32) || (c =? 160) || (c =? 5760)
   || (8192 <=? c) && (c <=? 8202) || (c =? 8232) || (c =? 8233)
   || (c =? 8239) || (c =? 8287) || (c =? 12288) || (c =? 65279))%N.

Fixpoint trimStart (s : jsstring) : jsstring :=
  match s with
  | [] => []
  | c :: s' => if isWhiteSpace c then trimStart s' else s
  end.

Definition trimEnd (s : jsstring) : jsstring := rev (trimStart (rev s)).

(** [String.prototype.trim]. *)
Definition trim (s : jsstring) : jsstring := trimEnd (trimStart s).

(** [String.prototype.startsWith]. *)
Fixpoint startsWith (s pat : jsstring) {struct pat} : bool :=
  match pat, s with
  | [], _ => true
  | p :: pat', c :: s' => unit_eqb p c && startsWith s' pat'
  | _ :: _, [] => false
  end.

(** [String.prototype.endsWith]. *)
Definition endsWith (s pat : jsstring) : bool := startsWith (rev s) (rev pat).

(** [String.prototype.includes]. *)
Fixpoint includes (s pat : jsstring) : bool :=
  match s with
  | [] => startsWith [] pat
  | _ :: s' => startsWith s pat || includes s' pat
  end.

(** Decimal digits of an integer, with a leading [-] when negative. *)
Definition decimal (z : Z) : jsstring :=
  js (NilZero.string_of_int (Z.to_int z)).

End JsString.
Import JsString.

(* ================================================================== *)
(** * JSON values *)
(* ================================================================== *)

(** A Number: a finite one is given by its sign and the decimal
    expansion [mantissa * 10 ^ exponent] that identifies it, the one that
    Number::toString prints from (the zeros are those of mantissa 0); the
    others are the two infinities and NaN. *)
Inductive Number : Type :=
| Finite (negative : bool) (mantissa : N) (exponent : Z)
| Infinity (negative : bool)
| NaN.

(** The Number of an integer. *)
Definition integer (z : Z) : Number := Finite (z <? 0)%Z (Z.abs_N z) 0.

(** The length of a string or of an array, as a Number. *)
Definition length_number (len : nat) : Number := Finite false (N.of_nat len) 0.

(** Whether a Number is +0, -0 or NaN, the Numbers that are falsy. *)
Definition zero_or_NaN (x : Number) : bool :=
  match x with
  | Finite _ 0%N _ | NaN => true
  | _ => false
  end.

Fixpoint drop_zeros (s : jsstring) : jsstring :=
  match s with
  | [] => []
  | c :: s' => if unit_eqb c 48%N then drop_zeros s' else s
  end.

(** The digits [s] without the zeros that end them. *)
Definition significant (s : jsstring) : jsstring := rev (drop_zeros (rev s)).

Definition zeros (n : nat) : jsstring := repeat 48%N n.

(** Number::toString(x), radix 10.  For a finite x other than zero, with
    [s] its [k] significant digits and [n] the place of its decimal point
    (x is [s * 10 ^ (n - k)]): the digits with [n - k] zeros after them
    when [k <= n <= 21], the digits with the point after the first [n]
    when [0 < n <= 21], [0.] with [-n] zeros and the digits when
    [-6 < n <= 0], and the exponent form otherwise. *)
Definition Number_toString (x : Number) : jsstring :=
  match x with
  | NaN => js "NaN"
  | Infinity negative => (if negative then js "-" else []) ++ js "Infinity"
  | Finite _ 0%N _ => js "0"
  | Finite negative (Npos m) exponent =>
      let digits := decimal (Zpos m) in
      let s := significant digits in
      let k := Z.of_nat (length s) in
      let n := (exponent + Z.of_nat (length digits))%Z in
      (if negative then js "-" else [])
      ++ (if ((k <=? n) && (n <=? 21))%Z then
            s ++ zeros (Z.to_nat (n - k))
          else if ((0 <? n) && (n <=? 21))%Z then
            firstn (Z.to_nat n) s ++ js "." ++ skipn (Z.to_nat n) s
          else if ((-6 <? n) && (n <=? 0))%Z then
            js "0." ++ zeros (Z.to_nat (- n)) ++ s
          else
            firstn 1 s
            ++ (if (1 <? k)%Z then js "." ++ skipn 1 s else [])
            ++ js "e" ++ (if (n <? 0)%Z then js "-" else js "+")
            ++ decimal (Z.abs (n - 1)))
  end.

(** What [express.json()] / [express.urlencoded()] put in [req.body] and
    what the provider's SDK resolves to.  An object is the list of its
    own properties, looked up by key. *)
Inductive JValue : Type :=
| JUndefined
| JNull
| JBool (b : bool)
| JNumber (n : Number)
| JString (s : jsstring)
| JArray (items : list JValue)
| JObject (props : list (jsstring * JValue)).

(** What a [throw] carries. *)
Inductive Thrown : Type :=
| TypeError (what : jsstring)
| Error (message : jsstring)
| Rejected (reason : JValue).

(** The outcome of evaluating an expression. *)
Inductive Completion (A : Type) : Type :=
| Normal (a : A)
| Throw (e : Thrown).
Arguments Normal {A} a.
Arguments Throw {A} e.

(** ToBoolean: the truthiness that [!x] negates. *)
Definition ToBoolean (v : JValue) : bool :=
  match v with
  | JUndefined | JNull => false
  | JBool b => b
  | JNumber n => negb (zero_or_NaN n)
  | JString s => negb (eqb s [])
  | JArray _ | JObject _ => true
  end.

(** Whether an object has an own property [k]. *)
Fixpoint has_own (k : jsstring) (props : list (jsstring * JValue)) : bool :=
  match props with
  | [] => false
  | (k', _) :: props' => eqb k k' || has_own k props'
  end.

(** ToString, as applied by template literals and by [RegExp.prototype.test]
    to their operand.  A primitive has its text.  An array is joined with
    commas, its elements converted from left to right, [undefined] and
    [null] giving the empty text.  An object goes through its [toString]
    and [valueOf]: one that came from JSON gives [[object Object]], unless
    it has an own property [toString], which is no function and hides the
    inherited one, so that the conversion throws. *)
Fixpoint ToString (v : JValue) : Completion jsstring :=
  match v with
  | JUndefined => Normal (js "undefined")
  | JNull => Normal (js "null")
  | JBool true => Normal (js "true")
  | JBool false => Normal (js "false")
  | JNumber n => Normal (Number_toString n)
  | JString s => Normal s
  | JArray items =>
      (fix join (l : list JValue) : Completion jsstring :=
         let element x :=
           match x with
           | JUndefined | JNull => Normal []
           | _ => ToString x
           end in
         match l with
         | [] => Normal []
         | [x] => element x
         | x :: l' =>
             match element x with
             | Throw e => Throw e
             | Normal first =>
                 match join l' with
                 | Throw e => Throw e
                 | Normal others => Normal (first ++ js "," ++ others)
                 end
             end
         end) items
  | JObject props =>
      if has_own (js "toString") props
      then Throw (TypeError (js "Cannot convert object to primitive value"))
      else Normal (js "[object Object]")
  end.

Fixpoint own_property (k : jsstring) (props : list (jsstring * JValue)) : JValue :=
  match props with
  | [] => JUndefined
  | (k', v) :: props' => if eqb k k' then v else own_property k props'
  end.

(** [v.k] and the destructuring [{ k } = v], for the data properties the
    handler reads ([nome], [email], [data], [error], [message], [id]):
    reading from [undefined] or [null] throws, a primitive has none of
    them. *)
Definition Get (v : JValue) (k : jsstring) : Completion JValue :=
  match v with
  | JUndefined => Throw (TypeError (js "Cannot read properties of undefined"))
  | JNull => Throw (TypeError (js "Cannot read properties of null"))
  | JObject props => Normal (own_property k props)
  | JString s =>
      Normal (if eqb k (js "length") then JNumber (length_number (length s))
              else JUndefined)
  | JArray items =>
      Normal (if eqb k (js "length")
              then JNumber (length_number (length items))
              else JUndefined)
  | JBool _ | JNumber _ => Normal JUndefined
  end.

(** The method call [v.trim()]: only a string has a callable [trim]; on any
    other JSON value the property is missing or is not a function, and the
    call throws. *)
Definition call_trim (v : JValue) : Completion jsstring :=
  match v with
  | JString s => Normal (trim s)
  | _ => Throw (TypeError (js "trim is not a function"))
  end.

(* ================================================================== *)
(** * Regular expressions *)
(* ================================================================== *)

Module RegExp.

Inductive Pattern : Type :=
| Fail
| Eps
| Class (accept : code_unit -> bool)
| Seq (p q : Pattern)
| Alt (p q : Pattern)
| Star (p : Pattern).

(** [p+] *)
Definition Plus (p : Pattern) : Pattern := Seq p (Star p).

(** A pattern character. *)
Definition Chr (c : jsstring) : Pattern :=
  match c with
  | [u] => Class (unit_eqb u)
  | _ => Fail
  end.

Fixpoint nullable (p : Pattern) : bool :=
  match p with
  | Fail => false
  | Eps => true
  | Class _ => false
  | Seq p q => nullable p && nullable q
  | Alt p q => nullable p || nullable q
  | Star _ => true
  end.

(** Brzozowski derivative: what is left of [p] after reading [c]. *)
Fixpoint deriv (c : code_unit) (p : Pattern) : Pattern :=
  match p with
  | Fail => Fail
  | Eps => Fail
  | Class f => if f c then Eps else Fail
  | Seq p q =>
      if nullable p then Alt (Seq (deriv c p) q) (deriv c q)
      else Seq (deriv c p) q
  | Alt p q => Alt (deriv c p) (deriv c q)
  | Star p => Seq (deriv c p) (Star p)
  end.

(** Whether the whole of [s] matches [p]. *)
Fixpoint matches (p : Pattern) (s : jsstring) : bool :=
  match s with
  | [] => nullable p
  | c :: s' => matches (deriv c p) s'
  end.

(** [/^p$/.test(s)] for a pattern without flags: the anchors pin the match
    to the whole subject. *)
Definition test (p : Pattern) (s : jsstring) : bool := matches p s.

(** The language of a pattern. *)
Inductive Matches : Pattern -> jsstring -> Prop :=
| MEps : Matches Eps []
| MClass f c : f c = true -> Matches (Class f) [c]
| MSeq p q s t : Matches p s -> Matches q t -> Matches (Seq p q) (s ++ t)
| MAltL p q s : Matches p s -> Matches (Alt p q) s
| MAltR p q s : Matches q s -> Matches (Alt p q) s
| MStarNil p : Matches (Star p) []
| MStarApp p s t :
    Matches p s -> Matches (Star p) t -> Matches (Star p) (s ++ t).

End RegExp.

(** The class [[^\s@]]. *)
Definition not_space_nor_at (c : code_unit) : bool :=
  negb (isWhiteSpace c) && negb (unit_eqb c 64%N).

(** [const emailRegex = /^[^\s@]+@[^\s@]+\.[^\s@]+$/] *)
Definition emailRegex : RegExp.Pattern :=
  RegExp.Seq (RegExp.Plus (RegExp.Class not_space_nor_at))
    (RegExp.Seq (RegExp.Chr (js "@"))
       (RegExp.Seq (RegExp.Plus (RegExp.Class not_space_nor_at))
          (RegExp.Seq (RegExp.Chr (js "."))
             (RegExp.Plus (RegExp.Class not_space_nor_at))))).

(** [emailRegex.test(email)]: the operand is converted with ToString, and
    the call throws when the conversion does. *)
Definition emailRegex_test (email : JValue) : Completion bool :=
  match ToString email with
  | Normal text => Normal (RegExp.test emailRegex text)
  | Throw x => Throw x
  end.

(* ================================================================== *)
(** * The template module (mensagem.js) *)
(* ================================================================== *)

(** The shape of the object that mensagem.js exports. *)
Record Mensagem : Type := {
  assunto : jsstring;
  texto : jsstring;
  html : jsstring
}.

Definition mensagem_assunto : jsstring := js "Bem-vindo(a) ao DevTogheter".

Definition mensagem_texto : jsstring := lines [
    js "Olá, {{nome}}! ";
    [];
    js "Seja bem-vindo(a) ao nosso sistema. Estamos felizes em tê-lo(a) conosco.";
    [];
    js "Esperamos que tenha uma excelente experiência!";
    [];
    js "Atenciosamente,";
    js "Equipe do Sistema"
  ].

Definition mensagem_html : jsstring := lines [
    [];
    js "<!DOCTYPE html>";
    js "<html lang=" ++ dquote ++ js "pt-BR" ++ dquote ++ js ">";
    js "<head>";
    js "    <meta charset=" ++ dquote ++ js "UTF-8" ++ dquote ++ js ">";
    js "    <meta name=" ++ dquote ++ js "viewport" ++ dquote ++ js " content=" ++ dquote ++ js "width=device-width, initial-scale=1.0" ++ dquote ++ js ">";
    js "    <title>Bem-vindo(a)!</title>";
    js "    <style>";
    js "        body {";
    js "            font-family: 'Arial', sans-serif;";
    js "            line-height: 1.6;";
    js "            color: #333;";
    js "            max-width: 600px;";
    js "            margin: 0 auto;";
    js "            padding: 20px;";
    js "            background-color: #f4f4f4;";
    js "        }";
    js "        .container {";
    js "            background-color: white;";
    js "            padding: 30px;";
    js "            border-radius: 10px;";
    js "            box-shadow: 0 2px 10px rgba(0,0,0,0.1);";
    js "        }";
    js "        .header {";
    js "            text-align: center;";
    js "            border-bottom: 2px solid #58A6FF;";
    js "            padding-bottom: 20px;";
    js "            margin-bottom: 30px;";
    js "        }";
    js "        .header h1 {";
    js "            color: #58A6FF;";
    js "            margin: 0;";
    js "        }";
    js "        .content {";
    js "            font-size: 16px;";
    js "            line-height: 1.8;";
    js "        }";
    js "        .footer {";
    js "            text-align: center;";
    js "            margin-top: 30px;";
    js "            padding-top: 20px;";
    js "            border-top: 1px solid #eee;";
    js "            color: #666;";
    js "            font-size: 14px;";
    js "        }";
    js "        .highlight {";
    js "            color: #58A6FF;";
    js "            font-weight: bold;";
    js "        }";
    js "    </style>";
    js "</head>";
    js "<body>";
    js "    <div class=" ++ dquote ++ js "container" ++ dquote ++ js ">";
    js "        <div class=" ++ dquote ++ js "header" ++ dquote ++ js ">";
    js "            <h1>🎉 Bem-vindo(a) ao DevTogheter!</h1>";
    js "        </div>";
    js "        ";
    js "        <div class=" ++ dquote ++ js "content" ++ dquote ++ js ">";
    js "            <p>Olá, <span class=" ++ dquote ++ js "highlight" ++ dquote ++ js ">{{nome}}</span>!</p>";
    js "            ";
    js "            <p>Seja bem-vindo(a) a nosso comunidade de programação. Estamos felizes em tê-lo(a) conosco.</p>";
    js "            ";
    js "            <p>Esperamos que tenha uma excelente experiência!</p>";
    js "            ";
    js "            <p>Atenciosamente,<br>";
    js "            <strong>Equipe DevTogheter</strong></p>";
    js "        </div>";
    js "        ";
    js "        <div class=" ++ dquote ++ js "footer" ++ dquote ++ js ">";
    js "            <p>Este é um email automático, por favor não responda.</p>";
    js "            <p>© 2025 DevTogheter</p>";
    js "        </div>";
    js "    </div>";
    js "</body>";
    js "</html>"
  ].

(** [module.exports] of mensagem.js. *)
Definition mensagem_js : Mensagem :=
  {| assunto := mensagem_assunto;
     texto := mensagem_texto;
     html := mensagem_html |}.

(* ================================================================== *)
(** * String.prototype.replace with a global literal pattern *)
(* ================================================================== *)

(** GetSubstitution of ECMAScript for a match without capture groups:
    in the replacement text, [$$] stands for [$], [$&] for the matched
    text, [$`] for the subject before the match and [$'] for the subject
    after it; any other [$] is literal. *)
Fixpoint GetSubstitution (matched before after replacement : jsstring)
  : jsstring :=
  match replacement with
  | [] => []
  | c :: r =>
      if unit_eqb c 36%N then
        match r with
        | [] => [c]
        | d :: r' =>
            if unit_eqb d 36%N then
              c :: GetSubstitution matched before after r'
            else if unit_eqb d 38%N then
              matched ++ GetSubstitution matched before after r'
            else if unit_eqb d 96%N then
              before ++ GetSubstitution matched before after r'
            else if unit_eqb d 39%N then
              after ++ GetSubstitution matched before after r'
            else c :: GetSubstitution matched before after r
        end
      else c :: GetSubstitution matched before after r
  end.

(** The scan of [subject.replace(/pat/g, replacement)] for a pattern that
    is a non-empty literal: [rest] is the subject from index [pos] on and
    [skip] counts the code units of the current match still to pass. *)
Fixpoint replace_scan (pat replacement subject : jsstring)
  (pos skip : nat) (rest : jsstring) : jsstring :=
  match rest with
  | [] => []
  | c :: rest' =>
      match skip with
      | S k => replace_scan pat replacement subject (S pos) k rest'
      | O =>
          if startsWith rest pat then
            GetSubstitution pat (firstn pos subject)
              (skipn (pos + length pat) subject) replacement
            ++ replace_scan pat replacement subject (S pos)
                 (length pat - 1) rest'
          else c :: replace_scan pat replacement subject (S pos) 0 rest'
      end
  end.

Definition replace_global (subject pat replacement : jsstring) : jsstring :=
  replace_scan pat replacement subject 0 0 subject.

(** The text that the pattern [/{{nome}}/g] matches: outside Unicode mode a
    brace that opens no quantifier is a literal character. *)
Definition placeholder : jsstring := js "{{nome}}".

(* ================================================================== *)
(** * Effects of the handler *)
(* ================================================================== *)

(** The argument of [resend.emails.send]. *)
Record SendArgs : Type := {
  send_from : JValue;
  send_to : list jsstring;
  send_subject : jsstring;
  send_text : jsstring;
  send_html : jsstring
}.

(** What the handler does to the outside, in order. *)
Inductive Event : Type :=
| console_log (line : jsstring)
| console_error (label : jsstring) (detail : JValue)
| console_error_thrown (label : jsstring) (e : Thrown)
| emails_send (args : SendArgs).

(** What the handler is given besides the request: the required template
    module, [process.env.FROM_EMAIL] and what awaiting
    [resend.emails.send(args)] gives. *)
Record Env : Type := {
  mensagem : Mensagem;
  FROM_EMAIL : JValue;
  resend : SendArgs -> Completion JValue
}.

Record Request : Type := { body : JValue }.

(** The response written through [res]: [res.json] alone answers 200. *)
Record Response : Type := { status : nat; json : JValue }.

(** A computation logs events and either yields a value or throws. *)
Definition M (A : Type) : Type := (list Event * Completion A)%type.

Definition ret {A} (a : A) : M A := ([], Normal a).

Definition bind {A B} (m : M A) (k : A -> M B) : M B :=
  match m with
  | (t, Normal a) => let (t', r) := k a in (t ++ t', r)
  | (t, Throw e) => (t, Throw e)
  end.

Definition eval {A} (c : Completion A) : M A := ([], c).

Definition throw {A} (e : Thrown) : M A := ([], Throw e).

Definition emit (e : Event) : M unit := ([e], Normal tt).

Definition try_catch {A} (m : M A) (handler : Thrown -> M A) : M A :=
  match m with
  | (t, Throw e) => let (t', r) := handler e in (t ++ t', r)
  | (t, Normal a) => (t, Normal a)
  end.

Declare Scope js_scope.
Delimit Scope js_scope with js.
Notation "x <- m ;; k" := (bind m (fun x => k))
  (at level 61, m at next level, right associativity) : js_scope.
Notation "m ;; k" := (bind m (fun _ => k))
  (at level 61, right associativity) : js_scope.

(** [await resend.emails.send(args)] *)
Definition await_send (env : Env) (args : SendArgs) : M JValue :=
  ([emails_send args], resend env args).

(** [res.status(code).json(obj)] *)
Definition respond (code : nat) (obj : JValue) : Response :=
  {| status := code; json := obj |}.

Definition failure (text : jsstring) : JValue :=
  JObject [(js "sucesso", JBool false); (js "mensagem", JString text)].

(* ================================================================== *)
(** * POST /send-welcome (server.js) *)
(* ================================================================== *)

Open Scope js_scope.

(** The [try] block of the handler. *)
Definition send_welcome_try (env : Env) (req : Request) : M Response :=
  (* const { nome, email } = req.body; *)
  nome <- eval (Get (body req) (js "nome")) ;;
  email <- eval (Get (body req) (js "email")) ;;
  if negb (ToBoolean nome) || negb (ToBoolean email) then
    ret (respond 400 (failure (js "Nome e email são obrigatórios")))
  else
    matched <- eval (emailRegex_test email) ;;
    if negb matched then
      ret (respond 400 (failure (js "Formato de email inválido")))
    else
      trimmed <- eval (call_trim nome) ;;
      if length trimmed <? 2 then
        ret (respond 400
               (failure (js "Nome deve ter pelo menos 2 caracteres")))
      else
        nome_text <- eval (ToString nome) ;;
        email_text <- eval (ToString email) ;;
        emit (console_log (js "📧 Enviando boas-vindas para: " ++ nome_text
                             ++ js " (" ++ email_text ++ js ")")) ;;
        let assunto := assunto (mensagem env) in
        nome1 <- eval (call_trim nome) ;;
        let textoPersonalizado :=
          replace_global (texto (mensagem env)) placeholder nome1 in
        nome2 <- eval (call_trim nome) ;;
        let htmlPersonalizado :=
          replace_global (html (mensagem env)) placeholder nome2 in
        destinatario <- eval (call_trim email) ;;
        result <- await_send env
                    {| send_from := FROM_EMAIL env;
                       send_to := [destinatario];
                       send_subject := assunto;
                       send_text := textoPersonalizado;
                       send_html := htmlPersonalizado |} ;;
        data <- eval (Get result (js "data")) ;;
        error <- eval (Get result (js "error")) ;;
        if ToBoolean error then
          emit (console_error (js "❌ Erro ao enviar email:") error) ;;
          message <- eval (Get error (js "message")) ;;
          message_text <- eval (ToString message) ;;
          throw (Error (js "Falha no envio: " ++ message_text))
        else
          id <- eval (Get data (js "id")) ;;
          id_text <- eval (ToString id) ;;
          emit (console_log (js "✅ Email enviado com sucesso! ID: "
                               ++ id_text)) ;;
          nome_again <- eval (ToString nome) ;;
          emailId <- eval (Get data (js "id")) ;;
          ret (respond 200
                 (JObject
                    [(js "sucesso", JBool true);
                     (js "mensagem",
                      JString (js "Boas-vindas enviadas para " ++ nome_again
                                 ++ js "! Verifique seu email."));
                     (js "emailId", emailId)])).

(** The [catch] block of the handler. *)
Definition send_welcome_catch (error : Thrown) : M Response :=
  emit (console_error_thrown (js "❌ Erro no servidor:") error) ;;
  ret (respond 500 (failure (js "Erro interno do servidor ao enviar email"))).

(** [app.post('/send-welcome', async (req, res) => { ... })] *)
Definition send_welcome (env : Env) (req : Request) : M Response :=
  try_catch (send_welcome_try env req) send_welcome_catch.

Close Scope js_scope.

(** The trace and the response of a run. *)
Definition trace_of {A} (m : M A) : list Event := fst m.

Definition response_of (m : M Response) : option Response :=
  match snd m with
  | Normal r => Some r
  | Throw _ => None
  end.

Definition is_send (e : Event) : bool :=
  match e with
  | emails_send _ => true
  | _ => false
  end.

(** Whether a run called the mail provider. *)
Definition send_invoked {A} (m : M A) : bool := existsb is_send (trace_of m).

(** A request whose body is the object with the given [nome] and [email]. *)
Definition submission (nome email : JValue) : Request :=
  {| body := JObject [(js "nome", nome); (js "email", email)] |}.

(* ================================================================== *)
(** * Vocabulary of the properties *)
(* ================================================================== *)

(** The three validation failures, in the order of the handler's guards. *)
Inductive Reason : Type :=
| MissingField
| InvalidEmailFormat
| NameTooShort.

(** The [mensagem] text that each failure is answered with. *)
Definition reason_text (r : Reason) : jsstring :=
  match r with
  | MissingField => js "Nome e email são obrigatórios"
  | InvalidEmailFormat => js "Formato de email inválido"
  | NameTooShort => js "Nome deve ter pelo menos 2 caracteres"
  end.

(** The run that answers a validation failure: nothing logged, nothing
    sent, status 400. *)
Definition rejected (r : Reason) : M Response :=
  ([], Normal (respond 400 (failure (reason_text r)))).

(** The response of the [catch] block. *)
Definition server_error : Response :=
  respond 500 (failure (js "Erro interno do servidor ao enviar email")).

(** The guard of each rule, as the handler writes it; the second and the
    third can throw. *)
Definition guard (r : Reason) (nome email : JValue) : Completion bool :=
  match r with
  | MissingField => Normal (negb (ToBoolean nome) || negb (ToBoolean email))
  | InvalidEmailFormat =>
      match emailRegex_test email with
      | Normal matched => Normal (negb matched)
      | Throw x => Throw x
      end
  | NameTooShort =>
      match call_trim nome with
      | Normal trimmed => Normal (List.length trimmed <? 2)
      | Throw x => Throw x
      end
  end.

(** An input violates a rule when the rule's guard comes out true. *)
Definition violates (r : Reason) (nome email : JValue) : bool :=
  match guard r nome email with
  | Normal b => b
  | Throw _ => false
  end.

(** The rules among [rules] that an input violates, tried in order up to
    the first whose guard throws: no rule is tried after that. *)
Fixpoint found (rules : list Reason) (nome email : JValue) : list Reason :=
  match rules with
  | [] => []
  | r :: rules' =>
      match guard r nome email with
      | Normal true => r :: found rules' nome email
      | Normal false => found rules' nome email
      | Throw _ => []
      end
  end.

(** All the rules an input violates, in rule order. *)
Definition violations (nome email : JValue) : list Reason :=
  found [MissingField; InvalidEmailFormat; NameTooShort] nome email.

(** The shape [local@domain.suffix]: three non-empty runs of characters
    that are neither white space nor [@], separated by [@] and [.]. *)
Definition plain (c : code_unit) : Prop :=
  isWhiteSpace c = false /\ c <> 64%N.

Definition email_shape (s : jsstring) : Prop :=
  exists l d t,
    s = l ++ js "@" ++ d ++ js "." ++ t
    /\ l <> [] /\ d <> [] /\ t <> []
    /\ Forall plain l /\ Forall plain d /\ Forall plain t.

(** The first log line of a validated submission. *)
Definition announce (nome email : jsstring) : Event :=
  console_log (js "📧 Enviando boas-vindas para: " ++ nome
                 ++ js " (" ++ email ++ js ")").

(** The message handed to the provider for a validated submission. *)
Definition outgoing (env : Env) (nome email : jsstring) : SendArgs :=
  {| send_from := FROM_EMAIL env;
     send_to := [trim email];
     send_subject := assunto (mensagem env);
     send_text := replace_global (texto (mensagem env)) placeholder (trim nome);
     send_html := replace_global (html (mensagem env)) placeholder (trim nome) |}.

(** The body of the confirmation. *)
Definition confirmation (nome : jsstring) (emailId : JValue) : JValue :=
  JObject
    [(js "sucesso", JBool true);
     (js "mensagem",
      JString (js "Boas-vindas enviadas para " ++ nome
                 ++ js "! Verifique seu email."));
     (js "emailId", emailId)].

(** Replacing every occurrence of [pat] in the subject by [value], taken
    verbatim: the reading of the rendering contract, to compare
    [replace_global] with. *)
Fixpoint substitute_scan (pat value : jsstring) (skip : nat)
  (rest : jsstring) : jsstring :=
  match rest with
  | [] => []
  | c :: rest' =>
      match skip with
      | S k => substitute_scan pat value k rest'
      | O =>
          if startsWith rest pat then
            value ++ substitute_scan pat value (List.length pat - 1) rest'
          else c :: substitute_scan pat value 0 rest'
      end
  end.

Definition substitute (subject pat value : jsstring) : jsstring :=
  substitute_scan pat value 0 subject.

(** A provider stub that answers every call with [outcome], on the
    template of the repository. *)
Definition stub_env (outcome : Completion JValue) : Env :=
  {| mensagem := mensagem_js;
     FROM_EMAIL := JString (js "equipe@devtogether.dev");
     resend := fun _ => outcome |}.

(** What the provider's SDK resolves to on success and on refusal. *)
Definition sent (id : jsstring) : Completion JValue :=
  Normal (JObject [(js "data", JObject [(js "id", JString id)]);
                   (js "error", JNull)]).

Definition refused (message : jsstring) : Completion JValue :=
  Normal (JObject [(js "data", JNull);
                   (js "error", JObject [(js "message", JString message)])]).

(** The same handler on a template other than the repository's. *)
Definition with_template (m : Mensagem) (env : Env) : Env :=
  {| mensagem := m; FROM_EMAIL := FROM_EMAIL env; resend := resend env |}.

(** [Rendered pat value s r]: [r] is [s] with every occurrence of [pat],
    found from the left without overlap, replaced by [value]. *)
Inductive Rendered (pat value : jsstring) : jsstring -> jsstring -> Prop :=
| Rendered_rest s :
    includes s pat = false -> Rendered pat value s s
| Rendered_occurrence a b r :
    includes (a ++ removelast pat) pat = false ->
    Rendered pat value b r ->
    Rendered pat value (a ++ pat ++ b) (a ++ value ++ r).

(** A replacement text without [$] has no replacement patterns. *)
Definition no_dollar (value : jsstring) : bool :=
  forallb (fun c => negb (unit_eqb c 36%N)) value.

(** The subject before and after the first occurrence of the pattern. *)
Fixpoint before_first (s pat : jsstring) : jsstring :=
  match s with
  | [] => []
  | c :: s' => if startsWith s pat then [] else c :: before_first s' pat
  end.

Fixpoint after_first (s pat : jsstring) : jsstring :=
  match s with
  | [] => []
  | _ :: s' =>
      if startsWith s pat then skipn (List.length pat) s
      else after_first s' pat
  end.

(** An occurrence of [pat] straddles the seam of [a ++ b]: a proper
    non-empty prefix of the pattern ends [a] and the rest of the pattern
    starts [b]. *)
Definition straddles (a b pat : jsstring) : bool :=
  existsb (fun k => endsWith a (firstn k pat) && startsWith b (skipn k pat))
    (seq 1 (List.length pat - 1)).

(** A template that carries the placeholder in each of its parts. *)
Definition greeting : Mensagem :=
  {| assunto := js "Oi {{nome}}";
     texto := js "Hi {{nome}}, {{nome}}!";
     html := js "<p>Hi {{nome}}, {{nome}}!</p>" |}.

(* ================================================================== *)
(** * The paths of a run *)
(* ================================================================== *)

(** What the handler throws when the provider's [error] is truthy: the
    [Error] built from [error.message], or what converting that message
    to text throws. *)
Definition send_failure (message : JValue) : Thrown :=
  match ToString message with
  | Normal text => Error (js "Falha no envio: " ++ text)
  | Throw x => x
  end.

(** The line that the [catch] block logs. *)
Definition logged_fault (x : Thrown) : Event :=
  console_error_thrown (js "❌ Erro no servidor:") x.

Definition is_error_log (e : Event) : bool :=
  match e with
  | console_error _ _ | console_error_thrown _ _ => true
  | _ => false
  end.

(** [Outcome env req m]: [m] is what one of the paths through the handler
    gives for [req], together with the conditions under which the path is
    taken. *)
Inductive Outcome (env : Env) (req : Request) : M Response -> Prop :=
| Out_no_body x :
    Get (body req) (js "nome") = Throw x ->
    Outcome env req ([logged_fault x], Normal server_error)
| Out_rejected nome email reason rest :
    Get (body req) (js "nome") = Normal nome ->
    Get (body req) (js "email") = Normal email ->
    violations nome email = reason :: rest ->
    Outcome env req (rejected reason)
| Out_email_unprintable nome email x :
    Get (body req) (js "nome") = Normal nome ->
    Get (body req) (js "email") = Normal email ->
    violates MissingField nome email = false ->
    emailRegex_test email = Throw x ->
    Outcome env req ([logged_fault x], Normal server_error)
| Out_name_not_string nome email x :
    Get (body req) (js "nome") = Normal nome ->
    Get (body req) (js "email") = Normal email ->
    violates MissingField nome email = false ->
    emailRegex_test email = Normal true ->
    call_trim nome = Throw x ->
    Outcome env req ([logged_fault x], Normal server_error)
| Out_email_not_string s email text x :
    Get (body req) (js "nome") = Normal (JString s) ->
    Get (body req) (js "email") = Normal email ->
    violations (JString s) email = [] ->
    ToString email = Normal text ->
    emailRegex_test email = Normal true ->
    call_trim email = Throw x ->
    Outcome env req
      ([announce s text; logged_fault x], Normal server_error)
| Out_provider_throws s e x :
    Get (body req) (js "nome") = Normal (JString s) ->
    Get (body req) (js "email") = Normal (JString e) ->
    violations (JString s) (JString e) = [] ->
    resend env (outgoing env s e) = Throw x ->
    Outcome env req
      ([announce s e; emails_send (outgoing env s e); logged_fault x],
       Normal server_error)
| Out_result_unreadable s e result x :
    Get (body req) (js "nome") = Normal (JString s) ->
    Get (body req) (js "email") = Normal (JString e) ->
    violations (JString s) (JString e) = [] ->
    resend env (outgoing env s e) = Normal result ->
    Get result (js "data") = Throw x ->
    Outcome env req
      ([announce s e; emails_send (outgoing env s e); logged_fault x],
       Normal server_error)
| Out_refused s e result err message :
    Get (body req) (js "nome") = Normal (JString s) ->
    Get (body req) (js "email") = Normal (JString e) ->
    violations (JString s) (JString e) = [] ->
    resend env (outgoing env s e) = Normal result ->
    Get result (js "error") = Normal err ->
    ToBoolean err = true ->
    Get err (js "message") = Normal message ->
    Outcome env req
      ([announce s e; emails_send (outgoing env s e);
        console_error (js "❌ Erro ao enviar email:") err;
        logged_fault (send_failure message)],
       Normal server_error)
| Out_no_data s e result data err x :
    Get (body req) (js "nome") = Normal (JString s) ->
    Get (body req) (js "email") = Normal (JString e) ->
    violations (JString s) (JString e) = [] ->
    resend env (outgoing env s e) = Normal result ->
    Get result (js "data") = Normal data ->
    Get result (js "error") = Normal err ->
    ToBoolean err = false ->
    Get data (js "id") = Throw x ->
    Outcome env req
      ([announce s e; emails_send (outgoing env s e); logged_fault x],
       Normal server_error)
| Out_id_unprintable s e result data err id x :
    Get (body req) (js "nome") = Normal (JString s) ->
    Get (body req) (js "email") = Normal (JString e) ->
    violations (JString s) (JString e) = [] ->
    resend env (outgoing env s e) = Normal result ->
    Get result (js "data") = Normal data ->
    Get result (js "error") = Normal err ->
    ToBoolean err = false ->
    Get data (js "id") = Normal id ->
    ToString id = Throw x ->
    Outcome env req
      ([announce s e; emails_send (outgoing env s e); logged_fault x],
       Normal server_error)
| Out_confirmed s e result data err id id_text :
    Get (body req) (js "nome") = Normal (JString s) ->
    Get (body req) (js "email") = Normal (JString e) ->
    violations (JString s) (JString e) = [] ->
    resend env (outgoing env s e) = Normal result ->
    Get result (js "data") = Normal data ->
    Get result (js "error") = Normal err ->
    ToBoolean err = false ->
    Get data (js "id") = Normal id ->
    ToString id = Normal id_text ->
    Outcome env req
      ([announce s e; emails_send (outgoing env s e);
        console_log (js "✅ Email enviado com sucesso! ID: " ++ id_text)],
       Normal (respond 200 (confirmation s id))).

(** The number of calls to the provider in a trace. *)
Definition sends (t : list Event) : nat := List.length (filter is_send t).

(** The number of [@] in a string. *)
Definition at_signs (s : jsstring) : nat :=
  List.length (filter (unit_eqb 64%N) s).

(** No white space anywhere. *)
Definition no_white_space (s : jsstring) : bool :=
  forallb (fun c => negb (isWhiteSpace c)) s.

(* ================================================================== *)
(** * The form script (public script of the page) *)
(* ================================================================== *)

Module Frontend.

(** A message element, with what the script assigned to it. *)
Record MensagemDiv : Type := {
  node : nat;
  className : jsstring;
  textContent : JValue
}.

(** What the script reads and changes in the page: the two inputs with
    the values [form.reset()] gives them back, the button, the children
    of [#mensagens] in document order, the pending [setTimeout] calls
    (node to remove, delay in ms) and the count of elements appended so
    far, which numbers the next one. *)
Record Page : Type := {
  nomeInput_value : jsstring;
  emailInput_value : jsstring;
  nomeInput_defaultValue : jsstring;
  emailInput_defaultValue : jsstring;
  enviarBtn_disabled : bool;
  mensagensDiv : list MensagemDiv;
  timeouts : list (nat * nat);
  created : nat
}.

(** The argument of [fetch]: [payload] is the value whose JSON text is
    the request body. *)
Record FetchRequest : Type := {
  url : jsstring;
  method : jsstring;
  contentType : jsstring;
  payload : JValue
}.

Inductive BrowserEvent : Type :=
| preventDefault
| log (label : jsstring) (v : JValue)
| error (label : jsstring) (e : Thrown)
| fetch_call (r : FetchRequest).

(** What the network does with a request: [fetch] rejects, or resolves
    to a response whose [json()] rejects or resolves to a value. *)
Definition Network : Type := FetchRequest -> Completion (Completion JValue).

(** A script step reads and writes the page, logs events, and yields a
    value or throws. *)
Definition B (A : Type) : Type :=
  Page -> (list BrowserEvent * Page * Completion A)%type.

Definition b_bind {A C} (m : B A) (k : A -> B C) : B C :=
  fun p =>
    match m p with
    | (t, p', Normal a) =>
        match k a p' with
        | (t', p'', r) => (t ++ t', p'', r)
        end
    | (t, p', Throw x) => (t, p', Throw x)
    end.

Definition b_eval {A} (c : Completion A) : B A := fun p => ([], p, c).

Definition b_emit (e : BrowserEvent) : B unit := fun p => ([e], p, Normal tt).

Definition read : B Page := fun p => ([], p, Normal p).

Definition write (f : Page -> Page) : B unit := fun p => ([], f p, Normal tt).

(** [try { body } catch (x) { handler } finally { finalizer }] *)
Definition try_catch_finally {A} (body : B A) (handler : Thrown -> B A)
  (finalizer : B unit) : B A :=
  fun p =>
    let '(t1, p1, r1) :=
      match body p with
      | (t, p', Throw x) =>
          match handler x p' with
          | (t', p'', r) => (t ++ t', p'', r)
          end
      | done => done
      end in
    match finalizer p1 with
    | (t2, p2, Normal _) => (t1 ++ t2, p2, r1)
    | (t2, p2, Throw x) => (t1 ++ t2, p2, Throw x)
    end.

Declare Scope browser_scope.
Delimit Scope browser_scope with browser.
Notation "x <- m ;; k" := (b_bind m (fun x => k))
  (at level 61, m at next level, right associativity) : browser_scope.
Notation "m ;; k" := (b_bind m (fun _ => k))
  (at level 61, right associativity) : browser_scope.

Definition set_disabled (b : bool) (p : Page) : Page :=
  {| nomeInput_value := nomeInput_value p;
     emailInput_value := emailInput_value p;
     nomeInput_defaultValue := nomeInput_defaultValue p;
     emailInput_defaultValue := emailInput_defaultValue p;
     enviarBtn_disabled := b;
     mensagensDiv := mensagensDiv p;
     timeouts := timeouts p;
     created := created p |}.

(** [form.reset()] *)
Definition form_reset (p : Page) : Page :=
  {| nomeInput_value := nomeInput_defaultValue p;
     emailInput_value := emailInput_defaultValue p;
     nomeInput_defaultValue := nomeInput_defaultValue p;
     emailInput_defaultValue := emailInput_defaultValue p;
     enviarBtn_disabled := enviarBtn_disabled p;
     mensagensDiv := mensagensDiv p;
     timeouts := timeouts p;
     created := created p |}.

(** The text that assigning [texto] to [textContent] gives the element:
    none for [undefined] and [null], the ToString of anything else, and
    the assignment throws when that conversion does. *)
Definition assigned_text (texto : JValue) : Completion jsstring :=
  match texto with
  | JUndefined | JNull => Normal []
  | _ => ToString texto
  end.

(** The page part of [mostrarMensagem]: the element with its class and
    text is appended, and its removal is scheduled in 3000 ms. *)
Definition show (texto : JValue) (tipo : jsstring) (p : Page) : Page :=
  let mensagemDiv :=
    {| node := created p;
       className := js "mensagem " ++ tipo;
       textContent := texto |} in
  {| nomeInput_value := nomeInput_value p;
     emailInput_value := emailInput_value p;
     nomeInput_defaultValue := nomeInput_defaultValue p;
     emailInput_defaultValue := emailInput_defaultValue p;
     enviarBtn_disabled := enviarBtn_disabled p;
     mensagensDiv := mensagensDiv p ++ [mensagemDiv];
     timeouts := timeouts p ++ [(node mensagemDiv, 3000)];
     created := S (created p) |}.

(** [function mostrarMensagem(texto, tipo)]: the assignment to
    [textContent] comes before [appendChild] and [setTimeout]. *)
Definition mostrarMensagem (texto : JValue) (tipo : jsstring) : B unit :=
  b_bind (b_eval (assigned_text texto)) (fun _ => write (show texto tipo)).

Definition attached (n : nat) (p : Page) : bool :=
  existsb (fun d => Nat.eqb (node d) n) (mensagensDiv p).

(** The callback that [mostrarMensagem] hands to [setTimeout], run for
    the element [n]: [if (mensagemDiv.parentNode) mensagemDiv.remove()]. *)
Definition timeout_fires (n : nat) (p : Page) : Page :=
  {| nomeInput_value := nomeInput_value p;
     emailInput_value := emailInput_value p;
     nomeInput_defaultValue := nomeInput_defaultValue p;
     emailInput_defaultValue := emailInput_defaultValue p;
     enviarBtn_disabled := enviarBtn_disabled p;
     mensagensDiv :=
       if attached n p
       then filter (fun d => negb (Nat.eqb (node d) n)) (mensagensDiv p)
       else mensagensDiv p;
     timeouts := filter (fun t => negb (Nat.eqb (fst t) n)) (timeouts p);
     created := created p |}.

(** [await fetch(...)] *)
Definition fetch (network : Network) (r : FetchRequest)
  : B (Completion JValue) :=
  fun p => ([fetch_call r], p, network r).

(** What the form sends. *)
Definition dados (p : Page) : JValue :=
  JObject [(js "nome", JString (nomeInput_value p));
           (js "email", JString (emailInput_value p))].

Open Scope browser_scope.

(** [async function enviarFormulario(event)], with the steps between its
    awaits taken in one go. *)
Definition enviarFormulario (network : Network) : B unit :=
  b_emit preventDefault ;;
  page <- read ;;
  let dados := dados page in
  write (set_disabled true) ;;
  b_emit (log (js "📤 Enviando dados:") dados) ;;
  try_catch_finally
    (response <- fetch network
                   {| url := js "/send-welcome";
                      method := js "POST";
                      contentType := js "application/json";
                      payload := dados |} ;;
     resultado <- b_eval response ;;
     b_emit (log (js "📥 Resposta recebida:") resultado) ;;
     sucesso <- b_eval (Get resultado (js "sucesso")) ;;
     if ToBoolean sucesso then
       mensagem <- b_eval (Get resultado (js "mensagem")) ;;
       mostrarMensagem mensagem (js "sucesso") ;;
       write form_reset
     else
       mensagem <- b_eval (Get resultado (js "mensagem")) ;;
       mostrarMensagem mensagem (js "erro"))
    (fun error_ =>
       b_emit (error (js "❌ Erro na requisição:") error_) ;;
       mostrarMensagem (JString (js "Erro de conexão com o servidor"))
         (js "erro"))
    (write (set_disabled false)).

Close Scope browser_scope.

(** The page, the events and the completion of a run of the script. *)
Definition page_after {A} (r : list BrowserEvent * Page * Completion A)
  : Page := snd (fst r).

Definition events_of {A} (r : list BrowserEvent * Page * Completion A)
  : list BrowserEvent := fst (fst r).

Definition completion_of {A} (r : list BrowserEvent * Page * Completion A)
  : Completion A := snd r.

(** The request that the script sends from a page. *)
Definition request_of (p : Page) : FetchRequest :=
  {| url := js "/send-welcome";
     method := js "POST";
     contentType := js "application/json";
     payload := dados p |}.

(** The element that a run appends for a page. *)
Definition shown (p : Page) (tipo : jsstring) (texto : JValue)
  : MensagemDiv :=
  {| node := created p;
     className := js "mensagem " ++ tipo;
     textContent := texto |}.

(** A page to try things on. *)
Definition sample_page : Page :=
  {| nomeInput_value := js "Ana";
     emailInput_value := js "ana@example.com";
     nomeInput_defaultValue := [];
     emailInput_defaultValue := [];
     enviarBtn_disabled := false;
     mensagensDiv := [];
     timeouts := [];
     created := 0 |}.

(** The ways in which the reply cannot be shown: [fetch] rejects,
    [response.json()] rejects, the value read has no properties, or its
    [mensagem] cannot be made the text of an element; [seen] is what was
    logged of the reply before the throw. *)
Definition unreadable (network : Network) (p : Page) (x : Thrown)
  (seen : list BrowserEvent) : Prop :=
  (network (request_of p) = Throw x /\ seen = [])
  \/ (network (request_of p) = Normal (Throw x) /\ seen = [])
  \/ (exists resultado,
        network (request_of p) = Normal (Normal resultado)
        /\ Get resultado (js "sucesso") = Throw x
        /\ seen = [log (js "📥 Resposta recebida:") resultado])
  \/ (exists resultado mensagem,
        network (request_of p) = Normal (Normal resultado)
        /\ Get resultado (js "mensagem") = Normal mensagem
        /\ assigned_text mensagem = Throw x
        /\ seen = [log (js "📥 Resposta recebida:") resultado]).

(** The elements of [#mensagens] are distinct elements that the script
    created, each with its removal pending, and no removal is pending
    for an element not yet created. *)
Definition tidy (p : Page) : Prop :=
  NoDup (map node (mensagensDiv p))
  /\ Forall (fun d => node d < created p) (mensagensDiv p)
  /\ Forall (fun d => In (node d, 3000) (timeouts p)) (mensagensDiv p)
  /\ Forall (fun t => fst t < created p) (timeouts p).

Definition is_fetch (e : BrowserEvent) : bool :=
  match e with
  | fetch_call _ => true
  | _ => false
  end.

End Frontend.

(* ================================================================== *)
(** * Properties *)
(* ================================================================== *)

Example js_ascii : js "a@b.co" = [97; 64; 98; 46; 99; 111]%N.
Proof. reflexivity. Qed.

Example js_latin1 : js "são" = [115; 227; 111]%N.
Proof. reflexivity. Qed.

Example js_astral : js "🎉" = [55356; 57225]%N.
Proof. reflexivity. Qed.

Example trim_example : trim (js " a ") = js "a".
Proof. reflexivity. Qed.

Example number_toString_example :
  Number_toString (integer 42) = js "42"
  /\ Number_toString (integer (-7)) = js "-7"
  /\ Number_toString (integer 0) = js "0"
  /\ Number_toString (integer 100) = js "100"
  /\ Number_toString (Finite false 15 (-1)) = js "1.5"
  /\ Number_toString (Finite true 123456 (-3)) = js "-123.456"
  /\ Number_toString (Finite false 1 (-6)) = js "0.000001"
  /\ Number_toString (Finite false 15 (-8)) = js "1.5e-7"
  /\ Number_toString (Finite false 1 20) = js "100000000000000000000"
  /\ Number_toString (Finite false 1 21) = js "1e+21"
  /\ Number_toString (Finite false 15 20) = js "1.5e+21"
  /\ Number_toString (integer 1500000000000000000000) = js "1.5e+21"
  /\ Number_toString (Finite false 17976931348623157 292)
     = js "1.7976931348623157e+308"
  /\ Number_toString (Finite false 5 (-324)) = js "5e-324".
Proof. repeat split; vm_compute; reflexivity. Qed.

(* ================================================================== *)
(** * Numbers as text *)
(* ================================================================== *)

Module NumberFacts.

Lemma drop_zeros_length r : List.length (drop_zeros r) <= List.length r.
Proof.
  induction r as [|c r IH]; cbn; [lia|].
  destruct (unit_eqb c 48%N); cbn; lia.
Qed.

Lemma drop_zeros_rest r :
  rev (drop_zeros r) ++ zeros (List.length r - List.length (drop_zeros r))
  = rev r.
Proof.
  induction r as [|c r IH]; [reflexivity|].
  cbn [drop_zeros]. destruct (unit_eqb c 48%N) eqn:E.
  - apply N.eqb_eq in E. subst c.
    cbn [List.length]. rewrite Nat.sub_succ_l by apply drop_zeros_length.
    unfold zeros in *. cbn [repeat rev]. rewrite repeat_cons, app_assoc.
    f_equal. exact IH.
  - rewrite Nat.sub_diag. cbn [zeros repeat]. apply app_nil_r.
Qed.

(** The significant digits and the zeros dropped make the digits. *)
Lemma significant_zeros l :
  significant l ++ zeros (List.length l - List.length (significant l)) = l.
Proof.
  unfold significant. rewrite length_rev.
  rewrite <- (length_rev l) at 1.
  rewrite drop_zeros_rest. apply rev_involutive.
Qed.

Lemma decimal_negative p : decimal (Zneg p) = js "-" ++ decimal (Zpos p).
Proof. reflexivity. Qed.

(** An integer of at most 21 digits prints as its decimal digits. *)
Lemma integer_toString z :
  List.length (decimal (Z.abs z)) <= 21 ->
  Number_toString (integer z) = decimal z.
Proof.
  intros L. destruct z as [|p|p].
  - reflexivity.
  - unfold integer, Number_toString. cbn [Z.ltb Z.compare Z.abs_N Z.abs] in *.
    remember (decimal (Zpos p)) as digits eqn:D. clear D.
    pose proof (drop_zeros_length (rev digits)) as K.
    assert (K' : List.length (significant digits) <= List.length digits)
      by (unfold significant; rewrite length_rev in *; exact K).
    replace ((Z.of_nat (List.length (significant digits))
              <=? 0 + Z.of_nat (List.length digits))%Z) with true
      by (symmetry; apply Z.leb_le; lia).
    replace ((0 + Z.of_nat (List.length digits) <=? 21)%Z) with true
      by (symmetry; apply Z.leb_le; lia).
    cbn [andb app].
    replace (Z.to_nat (0 + Z.of_nat (List.length digits)
                       - Z.of_nat (List.length (significant digits))))
      with (List.length digits - List.length (significant digits)) by lia.
    apply significant_zeros.
  - rewrite decimal_negative.
    unfold integer, Number_toString. cbn [Z.ltb Z.compare Z.abs_N Z.abs] in *.
    remember (decimal (Zpos p)) as digits eqn:D. clear D.
    pose proof (drop_zeros_length (rev digits)) as K.
    assert (K' : List.length (significant digits) <= List.length digits)
      by (unfold significant; rewrite length_rev in *; exact K).
    replace ((Z.of_nat (List.length (significant digits))
              <=? 0 + Z.of_nat (List.length digits))%Z) with true
      by (symmetry; apply Z.leb_le; lia).
    replace ((0 + Z.of_nat (List.length digits) <=? 21)%Z) with true
      by (symmetry; apply Z.leb_le; lia).
    cbn [andb].
    replace (Z.to_nat (0 + Z.of_nat (List.length digits)
                       - Z.of_nat (List.length (significant digits))))
      with (List.length digits - List.length (significant digits)) by lia.
    rewrite significant_zeros. reflexivity.
Qed.

End NumberFacts.

(* ================================================================== *)
(** * The regular-expression matcher decides the language *)
(* ================================================================== *)

Module RegExpFacts.
Import RegExp.

Lemma nullable_sound p : nullable p = true -> Matches p [].
Proof.
  induction p; cbn; intros H; try discriminate.
  - constructor.
  - apply andb_true_iff in H as [H1 H2].
    change (@nil code_unit) with (@nil code_unit ++ []).
    constructor; auto.
  - apply orb_true_iff in H as [H|H]; [apply MAltL|apply MAltR]; auto.
  - constructor.
Qed.

Lemma nullable_complete p s : Matches p s -> s = [] -> nullable p = true.
Proof.
  induction 1; cbn; intros E; try discriminate; auto.
  - apply app_eq_nil in E as [-> ->]. rewrite IHMatches1, IHMatches2; auto.
  - rewrite IHMatches; auto.
  - rewrite IHMatches; auto using orb_true_r.
Qed.

Lemma deriv_sound c p : forall s, Matches (deriv c p) s -> Matches p (c :: s).
Proof.
  induction p; cbn; intros s H.
  - inversion H.
  - inversion H.
  - destruct (accept c) eqn:E; inversion H; subst. now constructor.
  - destruct (nullable p1) eqn:N.
    + inversion H; subst.
      * match goal with
        | M : Matches (Seq _ _) _ |- _ => inversion M; subst
        end.
        change (c :: s0 ++ t) with ((c :: s0) ++ t). constructor; auto.
      * change (c :: s) with ([] ++ c :: s).
        constructor; auto using nullable_sound.
    + inversion H; subst.
      change (c :: s0 ++ t) with ((c :: s0) ++ t). constructor; auto.
  - inversion H; subst; [apply MAltL|apply MAltR]; auto.
  - inversion H; subst.
    change (c :: s0 ++ t) with ((c :: s0) ++ t). constructor; auto.
Qed.

Lemma deriv_complete c p s' :
  Matches p s' -> forall s, s' = c :: s -> Matches (deriv c p) s.
Proof.
  induction 1; intros u E; cbn.
  - discriminate.
  - injection E as -> <-. rewrite H. constructor.
  - destruct s as [|a s].
    + cbn in E. subst t.
      rewrite (nullable_complete H eq_refl).
      apply MAltR. auto.
    + cbn in E. injection E as -> <-.
      destruct (nullable p).
      * apply MAltL. constructor; auto.
      * constructor; auto.
  - apply MAltL; auto.
  - apply MAltR; auto.
  - discriminate.
  - destruct s as [|a s].
    + cbn in E. apply IHMatches2 in E. exact E.
    + cbn in E. injection E as -> <-. constructor; auto.
Qed.

(** The matcher accepts exactly the strings of the language. *)
Lemma matches_iff p s : matches p s = true <-> Matches p s.
Proof.
  revert p. induction s as [|c s IH]; intros p; cbn.
  - split; [apply nullable_sound | intros H; exact (nullable_complete H eq_refl)].
  - rewrite IH. split; [apply deriv_sound | intros H; exact (deriv_complete H eq_refl)].
Qed.

(** [[f]+] is a non-empty run of accepted characters. *)
Lemma Matches_star_class f s :
  Matches (Star (Class f)) s <-> forallb f s = true.
Proof.
  split.
  - intros H. remember (Star (Class f)) as p eqn:E.
    induction H; try discriminate; auto.
    injection E as ->. inversion H; subst. cbn.
    match goal with A : f _ = true |- _ => rewrite A end. auto.
  - induction s as [|c s IH]; cbn; intros H.
    + constructor.
    + apply andb_true_iff in H as [H1 H2].
      change (c :: s) with ([c] ++ s). constructor; auto. now constructor.
Qed.

Lemma Matches_plus_class f s :
  Matches (Plus (Class f)) s <-> s <> [] /\ forallb f s = true.
Proof.
  unfold Plus. split.
  - intros H. inversion H; subst.
    match goal with
    | A : Matches (Class _) _, B : Matches (Star _) _ |- _ =>
        inversion A; subst; apply Matches_star_class in B
    end.
    split; [discriminate|]. cbn.
    match goal with A : f _ = true |- _ => rewrite A end. auto.
  - intros [Hne H]. destruct s as [|c s]; [congruence|].
    cbn in H. apply andb_true_iff in H as [H1 H2].
    change (c :: s) with ([c] ++ s).
    constructor; [now constructor | now apply Matches_star_class].
Qed.

Lemma Matches_chr u s : Matches (Chr [u]) s <-> s = [u].
Proof.
  cbn. split.
  - intros H. inversion H; subst.
    match goal with A : unit_eqb _ _ = true |- _ => apply N.eqb_eq in A end.
    congruence.
  - intros ->. constructor. apply N.eqb_refl.
Qed.

End RegExpFacts.

Lemma plain_class l :
  forallb not_space_nor_at l = true <-> Forall plain l.
Proof.
  rewrite forallb_forall, Forall_forall.
  unfold not_space_nor_at, plain, unit_eqb.
  split; intros H c Hc; specialize (H c Hc).
  - apply andb_true_iff in H as [H1 H2].
    apply negb_true_iff in H1, H2. apply N.eqb_neq in H2. auto.
  - destruct H as [H1 H2]. apply N.eqb_neq in H2. now rewrite H1, H2.
Qed.

(** [emailRegex] accepts exactly the strings of the shape. *)
Lemma emailRegex_shape (s : jsstring) :
  RegExp.test emailRegex s = true <-> email_shape s.
Proof.
  unfold RegExp.test. rewrite RegExpFacts.matches_iff.
  unfold emailRegex, email_shape. split.
  - intros H.
    inversion H as [| |? ? l r1 Hl H1| | | |]; subst.
    inversion H1 as [| |? ? a r2 Ha H2| | | |]; subst.
    inversion H2 as [| |? ? d r3 Hd H3| | | |]; subst.
    inversion H3 as [| |? ? b t Hb Ht| | | |]; subst.
    apply RegExpFacts.Matches_plus_class in Hl as [? Hl], Hd as [? Hd], Ht as [? Ht].
    apply (RegExpFacts.Matches_chr 64%N) in Ha.
    apply (RegExpFacts.Matches_chr 46%N) in Hb. subst a b.
    exists l, d, t. rewrite <- !plain_class. repeat split; auto.
  - intros (l & d & t & -> & Hl & Hd & Ht & Fl & Fd & Ft).
    rewrite <- plain_class in Fl, Fd, Ft.
    constructor; [apply RegExpFacts.Matches_plus_class; auto|].
    constructor; [apply (RegExpFacts.Matches_chr 64%N); reflexivity|].
    constructor; [apply RegExpFacts.Matches_plus_class; auto|].
    constructor; [apply (RegExpFacts.Matches_chr 46%N); reflexivity|].
    apply RegExpFacts.Matches_plus_class; auto.
Qed.

(* ================================================================== *)
(** * Facts about strings *)
(* ================================================================== *)

Module JsStringFacts.

Lemma startsWith_iff s pat :
  startsWith s pat = true <-> exists t, s = pat ++ t.
Proof.
  revert s. induction pat as [|p pat IH]; intros s; cbn.
  - split; [intros _; exists s; reflexivity | reflexivity].
  - destruct s as [|c s].
    + split; [discriminate | intros [t E]; discriminate].
    + rewrite andb_true_iff, IH. unfold unit_eqb. rewrite N.eqb_eq. split.
      * intros [-> [t ->]]. eauto.
      * intros [t E]. injection E as -> ->. eauto.
Qed.

Lemma startsWith_app s t : startsWith (s ++ t) s = true.
Proof. apply startsWith_iff. eauto. Qed.

Lemma startsWith_weaken s t pat :
  startsWith s pat = true -> startsWith (s ++ t) pat = true.
Proof.
  rewrite !startsWith_iff. intros [u ->]. exists (u ++ t).
  now rewrite app_assoc.
Qed.

(** [startsWith] looks at no more of the subject than the pattern is long. *)
Lemma startsWith_firstn s pat :
  startsWith s pat = startsWith (firstn (List.length pat) s) pat.
Proof.
  revert s. induction pat as [|p pat IH]; intros s; cbn; auto.
  destruct s as [|c s]; cbn; auto. now rewrite <- IH.
Qed.

Lemma startsWith_length s pat :
  startsWith s pat = true -> List.length pat <= List.length s.
Proof.
  rewrite startsWith_iff. intros [t ->]. rewrite length_app. lia.
Qed.

Lemma firstn_app_le {A} n (x y : list A) :
  n <= List.length x -> firstn n (x ++ y) = firstn n x.
Proof.
  intros L. rewrite firstn_app.
  replace (n - List.length x) with 0 by lia.
  cbn [firstn]. apply app_nil_r.
Qed.

Lemma skipn_app_le {A} n (x y : list A) :
  n <= List.length x -> skipn n (x ++ y) = skipn n x ++ y.
Proof.
  intros L. rewrite skipn_app.
  replace (n - List.length x) with 0 by lia. reflexivity.
Qed.

Lemma includes_cons c s pat :
  includes (c :: s) pat = startsWith (c :: s) pat || includes s pat.
Proof. reflexivity. Qed.

Lemma includes_head s pat :
  startsWith s pat = true -> includes s pat = true.
Proof. destruct s; cbn [includes]; intros ->; reflexivity. Qed.

Lemma includes_short s pat :
  List.length s < List.length pat -> includes s pat = false.
Proof.
  induction s as [|c s IH]; intros L.
  - destruct pat; [cbn in L; lia | reflexivity].
  - rewrite includes_cons, IH by (cbn in L; lia).
    destruct (startsWith (c :: s) pat) eqn:E; auto.
    apply startsWith_length in E. lia.
Qed.

Lemma includes_prefix s t : includes (s ++ t) s = true.
Proof. apply includes_head, startsWith_app. Qed.

Lemma includes_app_r a b pat :
  includes b pat = true -> includes (a ++ b) pat = true.
Proof.
  intros H. induction a as [|c a IH]; auto.
  cbn [app]. rewrite includes_cons, IH. apply orb_true_r.
Qed.

(** A string contains itself wherever it is put. *)
Lemma includes_middle a s b : includes (a ++ s ++ b) s = true.
Proof. apply includes_app_r, includes_prefix. Qed.

Lemma endsWith_refl a : endsWith a a = true.
Proof.
  unfold endsWith. apply startsWith_iff. exists []. now rewrite app_nil_r.
Qed.

Lemma endsWith_cons c a pat :
  endsWith a pat = true -> endsWith (c :: a) pat = true.
Proof. unfold endsWith. cbn [rev]. apply startsWith_weaken. Qed.

Lemma straddles_cons c a b pat :
  straddles a b pat = true -> straddles (c :: a) b pat = true.
Proof.
  unfold straddles. rewrite !existsb_exists.
  intros (k & Hk & H). exists k. split; auto.
  apply andb_true_iff in H as [H1 H2].
  now rewrite (endsWith_cons _ _ _ H1), H2.
Qed.

(** An occurrence in [a ++ b] lies in [a], straddles the seam, or lies in
    [b]. *)
Lemma includes_app_cases a b pat :
  includes (a ++ b) pat = true ->
  includes a pat = true \/ straddles a b pat = true \/ includes b pat = true.
Proof.
  induction a as [|c a IH]; [auto|].
  cbn [app]. rewrite !includes_cons, orb_true_iff.
  intros [H|H].
  - destruct (Nat.le_gt_cases (List.length pat) (List.length (c :: a))) as [L|L].
    + left. apply orb_true_iff. left.
      rewrite startsWith_firstn.
      rewrite startsWith_firstn in H.
      change (c :: a ++ b) with ((c :: a) ++ b) in H.
      now rewrite firstn_app_le in H by lia.
    + right; left.
      apply startsWith_iff in H as [t E].
      change (c :: a ++ b) with ((c :: a) ++ b) in E.
      assert (E1 : firstn (List.length (c :: a)) pat = c :: a).
      { apply (f_equal (firstn (List.length (c :: a)))) in E.
        rewrite !firstn_app_le in E by lia.
        now rewrite firstn_all in E. }
      assert (E2 : b = skipn (List.length (c :: a)) pat ++ t).
      { apply (f_equal (skipn (List.length (c :: a)))) in E.
        rewrite !skipn_app_le in E by lia.
        now rewrite skipn_all in E. }
      unfold straddles. apply existsb_exists.
      exists (List.length (c :: a)). split.
      * apply in_seq. cbn [List.length] in *. lia.
      * rewrite E1, endsWith_refl. cbn [andb].
        apply startsWith_iff. eauto.
  - destruct (IH H) as [H1|[H1|H1]]; auto.
    + left. rewrite H1. apply orb_true_r.
    + right; left. now apply straddles_cons.
Qed.

End JsStringFacts.

(* ================================================================== *)
(** * Facts about trimming and replacing *)
(* ================================================================== *)

Module RenderFacts.
Import JsStringFacts.

Lemma trimStart_nil s :
  trimStart s = [] <-> forallb isWhiteSpace s = true.
Proof.
  induction s as [|c s IH]; cbn; [tauto|].
  destruct (isWhiteSpace c); cbn; [exact IH|].
  split; discriminate.
Qed.

Lemma trimStart_all s :
  forallb isWhiteSpace (trimStart s) = true -> trimStart s = [].
Proof.
  induction s as [|c s IH]; cbn; auto.
  destruct (isWhiteSpace c) eqn:E; auto.
  cbn. rewrite E. discriminate.
Qed.

Lemma forallb_rev {A} (f : A -> bool) l : forallb f (rev l) = forallb f l.
Proof.
  induction l as [|x l IH]; cbn; auto.
  rewrite forallb_app, IH. cbn. rewrite andb_true_r. apply andb_comm.
Qed.

(** [trim] leaves nothing exactly of the strings made of white space. *)
Lemma trim_nil s : trim s = [] <-> forallb isWhiteSpace s = true.
Proof.
  unfold trim, trimEnd. rewrite <- trimStart_nil. split.
  - intros H. apply (f_equal (@rev _)) in H. rewrite rev_involutive in H.
    cbn in H. apply trimStart_nil in H. rewrite forallb_rev in H.
    now apply trimStart_all.
  - intros ->. reflexivity.
Qed.

Lemma GetSubstitution_verbatim matched before after value :
  no_dollar value = true ->
  GetSubstitution matched before after value = value.
Proof.
  unfold no_dollar. induction value as [|c r IH]; cbn; auto.
  intros H. apply andb_true_iff in H as [H1 H2].
  apply negb_true_iff in H1. rewrite H1. now rewrite IH.
Qed.

Lemma replace_scan_verbatim pat value subject :
  no_dollar value = true ->
  forall rest pos skip,
    replace_scan pat value subject pos skip rest
    = substitute_scan pat value skip rest.
Proof.
  intros H. induction rest as [|c rest IH]; intros pos skip; cbn; auto.
  destruct skip; auto.
  rewrite GetSubstitution_verbatim, !IH by assumption. reflexivity.
Qed.

(** With a replacement text free of [$], the call replaces verbatim. *)
Lemma replace_global_verbatim subject pat value :
  no_dollar value = true ->
  replace_global subject pat value = substitute subject pat value.
Proof. intros H. apply replace_scan_verbatim, H. Qed.

Lemma substitute_none s pat value :
  includes s pat = false -> substitute s pat value = s.
Proof.
  unfold substitute. induction s as [|c s IH]; auto.
  rewrite includes_cons. intros H.
  apply orb_false_iff in H as [H1 H2].
  cbn [substitute_scan]. rewrite H1, IH; auto.
Qed.

Lemma substitute_skip pat value x b :
  substitute_scan pat value (List.length x) (x ++ b)
  = substitute_scan pat value 0 b.
Proof. induction x as [|c x IH]; cbn; auto. Qed.

(** With something before it, the pattern at the head of [a ++ pat ++ b]
    is decided inside [a ++ removelast pat]. *)
Lemma startsWith_seam c a pat b :
  startsWith ((c :: a) ++ pat ++ b) pat
  = startsWith ((c :: a) ++ removelast pat) pat.
Proof.
  rewrite startsWith_firstn, (startsWith_firstn (_ ++ removelast pat)).
  f_equal.
  rewrite (firstn_app _ (c :: a) (pat ++ b)).
  rewrite (firstn_app _ (c :: a) (removelast pat)).
  f_equal.
  rewrite removelast_firstn_len, firstn_firstn.
  rewrite firstn_app_le by lia.
  f_equal. cbn [List.length]. lia.
Qed.

Lemma substitute_first pat value a b :
  pat <> [] ->
  includes (a ++ removelast pat) pat = false ->
  substitute (a ++ pat ++ b) pat value
  = a ++ value ++ substitute b pat value.
Proof.
  intros Hp. unfold substitute. induction a as [|c a IH]; intros H.
  - destruct pat as [|p pat]; [congruence|].
    cbn [app substitute_scan].
    change (p :: pat ++ b) with ((p :: pat) ++ b).
    rewrite startsWith_app. f_equal.
    cbn [List.length]. rewrite Nat.sub_succ, Nat.sub_0_r.
    apply substitute_skip.
  - change ((c :: a) ++ removelast pat) with (c :: (a ++ removelast pat)) in H.
    rewrite includes_cons in H. apply orb_false_iff in H as [H1 H2].
    change (c :: (a ++ removelast pat)) with ((c :: a) ++ removelast pat) in H1.
    rewrite <- (startsWith_seam c a pat b) in H1.
    cbn [app substitute_scan]. cbn [app] in H1. rewrite H1.
    cbn [app] in IH. now rewrite IH.
Qed.

Lemma first_occurrence pat s :
  pat <> [] -> includes s pat = true ->
  exists a b, s = a ++ pat ++ b
              /\ includes (a ++ removelast pat) pat = false.
Proof.
  intros Hp. induction s as [|c s IH].
  - destruct pat; [congruence | discriminate].
  - rewrite includes_cons. intros H.
    destruct (startsWith (c :: s) pat) eqn:E.
    + apply startsWith_iff in E as [b E]. exists [], b. split; auto.
      cbn [app]. apply includes_short.
      rewrite removelast_firstn_len, length_firstn.
      destruct pat; [congruence | cbn [List.length]; lia].
    + cbn [orb] in H. destruct (IH H) as (a & b & -> & Ha).
      exists (c :: a), b. split; auto.
      change ((c :: a) ++ removelast pat) with (c :: (a ++ removelast pat)).
      rewrite includes_cons, Ha.
      change (c :: (a ++ removelast pat)) with ((c :: a) ++ removelast pat).
      rewrite <- (startsWith_seam c a pat b). cbn [app]. now rewrite E.
Qed.

(** [substitute] replaces every occurrence. *)
Lemma substitute_Rendered pat value :
  pat <> [] ->
  forall s, Rendered pat value s (substitute s pat value).
Proof.
  intros Hp s.
  remember (List.length s) as n eqn:En.
  revert s En. induction n as [n IH] using lt_wf_ind. intros s ->.
  destruct (includes s pat) eqn:E.
  - destruct (first_occurrence s Hp E) as (a & b & -> & Ha).
    rewrite substitute_first by assumption.
    constructor; auto.
    apply (IH (List.length b)); auto.
    rewrite !length_app.
    destruct pat; [congruence | cbn [List.length]; lia].
  - rewrite substitute_none by assumption. now constructor.
Qed.

(** What [Rendered] produces is unique. *)
Lemma Rendered_substitute pat value s r :
  pat <> [] -> Rendered pat value s r -> r = substitute s pat value.
Proof.
  intros Hp. induction 1.
  - now rewrite substitute_none.
  - rewrite substitute_first by assumption. now subst.
Qed.

(** An occurrence of [pat] in [pre ++ value ++ post] needs one in a part
    or across a seam. *)
Lemma includes_insert pre value post pat :
  includes pre pat = false ->
  includes value pat = false ->
  includes post pat = false ->
  existsb (fun k => endsWith pre (firstn k pat))
    (seq 1 (List.length pat - 1)) = false ->
  existsb (fun k => startsWith post (skipn k pat))
    (seq 1 (List.length pat - 1)) = false ->
  includes (pre ++ value ++ post) pat = false.
Proof.
  intros Hpre Hv Hpost Hl Hr.
  destruct (includes (pre ++ value ++ post) pat) eqn:E; auto.
  exfalso.
  assert (L : forall a b, straddles a b pat = true ->
              existsb (fun k => endsWith a (firstn k pat))
                (seq 1 (List.length pat - 1)) = true).
  { unfold straddles. intros a b. rewrite !existsb_exists.
    intros (k & Hk & H). apply andb_true_iff in H as [H _]. eauto. }
  assert (R : forall a b, straddles a b pat = true ->
              existsb (fun k => startsWith b (skipn k pat))
                (seq 1 (List.length pat - 1)) = true).
  { unfold straddles. intros a b. rewrite !existsb_exists.
    intros (k & Hk & H). apply andb_true_iff in H as [_ H]. eauto. }
  apply includes_app_cases in E as [E|[E|E]]; [congruence| |].
  - apply L in E. congruence.
  - apply includes_app_cases in E as [E|[E|E]]; [congruence| |congruence].
    apply R in E. congruence.
Qed.

End RenderFacts.

(* ================================================================== *)
(** * The paths of the handler *)
(* ================================================================== *)

Ltac unfold_handler :=
  unfold send_welcome, send_welcome_try, send_welcome_catch, await_send,
    bind, eval, emit, throw, ret, try_catch.

Ltac server_error_case :=
  eexists; eexists; split; [reflexivity | left; reflexivity].

Ltac rejection_case nome email :=
  eexists; eexists; split;
  [ reflexivity
  | right; right; exists nome, email; eexists; eexists;
    split; [reflexivity | split; [reflexivity |]];
    unfold violations; cbn [found guard] ].

Module HandlerFacts.

(** Every run ends in a response: 500, 200, or the rejection of an input
    that violates a rule. *)
Lemma status_cases env req :
  exists t r, send_welcome env req = (t, Normal r) /\
    (status r = 500 \/ status r = 200 \/
     exists nome email reason rest,
       Get (body req) (js "nome") = Normal nome /\
       Get (body req) (js "email") = Normal email /\
       violations nome email = reason :: rest).
Proof.
  unfold_handler.
  destruct (Get (body req) (js "nome")) as [nome|] eqn:Hn;
    [|server_error_case].
  destruct (Get (body req) (js "email")) as [email|] eqn:He;
    [|server_error_case].
  destruct (negb (ToBoolean nome) || negb (ToBoolean email)) eqn:G1.
  { rejection_case nome email. rewrite G1. reflexivity. }
  destruct (emailRegex_test email) as [matched|] eqn:R;
    [|server_error_case].
  destruct matched; cbn [negb].
  2:{ rejection_case nome email. rewrite G1, R. reflexivity. }
  destruct (call_trim nome) as [trimmed|] eqn:Ht; [|server_error_case].
  destruct (List.length trimmed <? 2) eqn:G3.
  { rejection_case nome email. rewrite G1, R, Ht. cbn [negb]. rewrite G3.
    reflexivity. }
  destruct (ToString nome); [|server_error_case].
  destruct (ToString email); [|server_error_case].
  destruct (call_trim email) as [dest|] eqn:Hd; [|server_error_case].
  match goal with
  | |- context [resend env ?a] => destruct (resend env a) as [result|]
  end; [|server_error_case].
  destruct (Get result (js "data")) as [data|]; [|server_error_case].
  destruct (Get result (js "error")) as [error|]; [|server_error_case].
  destruct (ToBoolean error).
  { destruct (Get error (js "message")) as [message|]; [|server_error_case].
    destruct (ToString message); server_error_case. }
  destruct (Get data (js "id")) as [id|]; [|server_error_case].
  destruct (ToString id); [|server_error_case].
  eexists; eexists; split; [reflexivity | right; left; reflexivity].
Qed.

(** The first rule violated decides the whole run. *)
Lemma first_violation env req nome email reason rest :
  Get (body req) (js "nome") = Normal nome ->
  Get (body req) (js "email") = Normal email ->
  violations nome email = reason :: rest ->
  send_welcome env req = rejected reason.
Proof.
  intros Hn He. unfold violations. cbn [found guard].
  unfold_handler. unfold rejected. rewrite Hn, He.
  destruct (negb (ToBoolean nome) || negb (ToBoolean email)).
  { intros H. injection H as <- _. cbn [reason_text]. reflexivity. }
  destruct (emailRegex_test email) as [matched|]; [|discriminate].
  destruct matched; cbn [negb].
  2:{ intros H. injection H as <- _. cbn [reason_text]. reflexivity. }
  destruct (call_trim nome) as [trimmed|]; [|discriminate].
  destruct (List.length trimmed <? 2); [|discriminate].
  intros H. injection H as <- _. cbn [reason_text]. reflexivity.
Qed.

Lemma reason_text_injective r r' :
  reason_text r = reason_text r' -> r = r'.
Proof. destruct r, r'; auto; intros H; vm_compute in H; discriminate. Qed.

Lemma rejected_injective r r' : rejected r = rejected r' -> r = r'.
Proof.
  unfold rejected, respond, failure. intros H.
  apply reason_text_injective. congruence.
Qed.

(** A run that rejects for [reason] had [reason] as first violation. *)
Lemma rejected_violation env req nome email reason :
  Get (body req) (js "nome") = Normal nome ->
  Get (body req) (js "email") = Normal email ->
  send_welcome env req = rejected reason ->
  exists rest, violations nome email = reason :: rest.
Proof.
  intros Hn He H.
  destruct (status_cases env req) as (t & r & E & C).
  rewrite H in E. unfold rejected in E. injection E as <- <-.
  destruct C as [C|[C|C]]; try discriminate C.
  destruct C as (nome' & email' & reason' & rest & Hn' & He' & V).
  rewrite Hn in Hn'. rewrite He in He'.
  injection Hn' as <-. injection He' as <-.
  pose proof (first_violation env req Hn He V) as H'.
  rewrite H in H'. apply rejected_injective in H'. subst. eauto.
Qed.

(** The pattern on a string. *)
Lemma emailRegex_test_string e :
  emailRegex_test (JString e) = Normal (RegExp.test emailRegex e).
Proof. reflexivity. Qed.

(** What passing the three rules means for two strings. *)
Lemma validated_guards s e :
  violations (JString s) (JString e) = [] ->
  negb (ToBoolean (JString s)) || negb (ToBoolean (JString e)) = false
  /\ emailRegex_test (JString e) = Normal true
  /\ (List.length (trim s) <? 2) = false.
Proof.
  unfold violations. cbn [found guard call_trim].
  rewrite emailRegex_test_string.
  destruct (negb (ToBoolean (JString s)) || negb (ToBoolean (JString e)));
    [discriminate|].
  destruct (RegExp.test emailRegex e); cbn [negb]; [|discriminate].
  destruct (List.length (trim s) <? 2); [discriminate|]. auto.
Qed.

(** Reading a property of a truthy value does not throw. *)
Lemma Get_truthy v k : ToBoolean v = true -> exists x, Get v k = Normal x.
Proof. destruct v; cbn; try discriminate; eauto. Qed.

Lemma Get_defined v k x k' : Get v k = Normal x -> exists y, Get v k' = Normal y.
Proof. destruct v; cbn; try discriminate; eauto. Qed.

Section Validated.
Variables (env : Env) (req : Request) (s e : jsstring).
Hypothesis Hn : Get (body req) (js "nome") = Normal (JString s).
Hypothesis He : Get (body req) (js "email") = Normal (JString e).
Hypothesis Hv : violations (JString s) (JString e) = [].

Ltac enter :=
  destruct (validated_guards s e Hv) as (G1 & G2 & G3);
  unfold_handler; rewrite Hn, He, G1, G2;
  cbn [call_trim negb ToString]; rewrite G3;
  unfold announce, outgoing.

(** A validated submission is announced and handed to the provider. *)
Lemma validated_sends :
  exists rest,
    trace_of (send_welcome env req)
    = announce s e :: emails_send (outgoing env s e) :: rest.
Proof.
  enter.
  match goal with
  | |- context [resend env ?a] => destruct (resend env a) as [result|]
  end; [|eexists; reflexivity].
  destruct (Get result (js "data")) as [data|]; [|eexists; reflexivity].
  destruct (Get result (js "error")) as [error|]; [|eexists; reflexivity].
  destruct (ToBoolean error).
  { destruct (Get error (js "message")) as [message|];
      [|eexists; reflexivity].
    destruct (ToString message); eexists; reflexivity. }
  destruct (Get data (js "id")) as [id|]; [|eexists; reflexivity].
  destruct (ToString id); eexists; reflexivity.
Qed.

Lemma provider_throws x :
  resend env (outgoing env s e) = Throw x ->
  send_welcome env req
  = ([announce s e; emails_send (outgoing env s e);
      console_error_thrown (js "❌ Erro no servidor:") x],
     Normal server_error).
Proof.
  intros H. unfold outgoing in H. enter. rewrite H. reflexivity.
Qed.

Lemma result_unreadable result x :
  resend env (outgoing env s e) = Normal result ->
  Get result (js "data") = Throw x ->
  send_welcome env req
  = ([announce s e; emails_send (outgoing env s e);
      console_error_thrown (js "❌ Erro no servidor:") x],
     Normal server_error).
Proof.
  intros H Hd. unfold outgoing in H. enter. rewrite H, Hd. reflexivity.
Qed.

Lemma provider_refuses result err :
  resend env (outgoing env s e) = Normal result ->
  Get result (js "error") = Normal err ->
  ToBoolean err = true ->
  exists message,
    Get err (js "message") = Normal message /\
    send_welcome env req
    = ([announce s e; emails_send (outgoing env s e);
        console_error (js "❌ Erro ao enviar email:") err;
        console_error_thrown (js "❌ Erro no servidor:")
          (send_failure message)],
       Normal server_error).
Proof.
  intros H Herr T.
  destruct (Get_truthy err (js "message") T) as [message Hm].
  destruct (Get_defined result (js "error") (js "data") Herr) as [data Hd].
  exists message. split; auto.
  unfold outgoing in H. unfold send_failure.
  enter. rewrite H, Hd, Herr, T, Hm.
  destruct (ToString message); reflexivity.
Qed.

Lemma data_unreadable result data err x :
  resend env (outgoing env s e) = Normal result ->
  Get result (js "data") = Normal data ->
  Get result (js "error") = Normal err ->
  ToBoolean err = false ->
  Get data (js "id") = Throw x ->
  send_welcome env req
  = ([announce s e; emails_send (outgoing env s e);
      console_error_thrown (js "❌ Erro no servidor:") x],
     Normal server_error).
Proof.
  intros H Hd Herr T Hid.
  unfold outgoing in H. enter. rewrite H, Hd, Herr, T, Hid. reflexivity.
Qed.

Lemma id_unprintable result data err id x :
  resend env (outgoing env s e) = Normal result ->
  Get result (js "data") = Normal data ->
  Get result (js "error") = Normal err ->
  ToBoolean err = false ->
  Get data (js "id") = Normal id ->
  ToString id = Throw x ->
  send_welcome env req
  = ([announce s e; emails_send (outgoing env s e);
      console_error_thrown (js "❌ Erro no servidor:") x],
     Normal server_error).
Proof.
  intros H Hd Herr T Hid Hx.
  unfold outgoing in H. enter. rewrite H, Hd, Herr, T, Hid, Hx. reflexivity.
Qed.

Lemma provider_accepts result data err id id_text :
  resend env (outgoing env s e) = Normal result ->
  Get result (js "data") = Normal data ->
  Get result (js "error") = Normal err ->
  ToBoolean err = false ->
  Get data (js "id") = Normal id ->
  ToString id = Normal id_text ->
  send_welcome env req
  = ([announce s e; emails_send (outgoing env s e);
      console_log (js "✅ Email enviado com sucesso! ID: " ++ id_text)],
     Normal (respond 200 (confirmation s id))).
Proof.
  intros H Hd Herr T Hid Hx.
  unfold outgoing in H. enter. rewrite H, Hd, Herr, T, Hid, Hx. reflexivity.
Qed.
End Validated.

(** No falsy value passes the email pattern. *)
Lemma emailRegex_truthy email :
  emailRegex_test email = Normal true -> ToBoolean email = true.
Proof.
  intros H. destruct email as [| |[|]|[neg m e|neg|]|s| |];
    cbn [ToBoolean zero_or_NaN negb];
    try reflexivity.
  - vm_compute in H. discriminate.
  - vm_compute in H. discriminate.
  - vm_compute in H. discriminate.
  - destruct m; [|reflexivity].
    unfold emailRegex_test in H. cbn [ToString Number_toString] in H.
    vm_compute in H. discriminate.
  - vm_compute in H. discriminate.
  - destruct s; [|reflexivity]. vm_compute in H. discriminate.
Qed.

(** A truthy [nome] that is not a string breaks the handler at [trim]. *)
Lemma non_string_name env req nome email :
  Get (body req) (js "nome") = Normal nome ->
  Get (body req) (js "email") = Normal email ->
  ToBoolean nome = true ->
  (forall s, nome <> JString s) ->
  emailRegex_test email = Normal true ->
  send_welcome env req
  = ([console_error_thrown (js "❌ Erro no servidor:")
        (TypeError (js "trim is not a function"))],
     Normal server_error).
Proof.
  intros Hn He T NS R. unfold_handler.
  rewrite Hn, He, T, (emailRegex_truthy email R), R.
  cbn [negb orb].
  destruct nome; try discriminate T; try reflexivity.
  exfalso. eapply NS. reflexivity.
Qed.

End HandlerFacts.

(* ================================================================== *)
(** * Validation *)
(* ================================================================== *)

(** The values that the presence check takes for missing. *)
Lemma falsy_values v :
  ToBoolean v = false <->
  v = JUndefined \/ v = JNull \/ v = JBool false
  \/ (exists negative exponent, v = JNumber (Finite negative 0 exponent))
  \/ v = JNumber NaN \/ v = JString [].
Proof.
  split.
  - destruct v as [| |[|]|[neg [|m] e|neg|]|s| |]; cbn; try discriminate;
      eauto 8.
    destruct s; [auto 8 | discriminate].
  - intros [ -> | [ -> | [ -> | [ (neg & e & ->) | [ -> | -> ] ] ] ] ];
      reflexivity.
Qed.

(** The three rejections, spelled out. *)
Lemma rejected_response :
  rejected MissingField
  = ([], Normal {| status := 400;
                   json := JObject
                     [(js "sucesso", JBool false);
                      (js "mensagem",
                       JString (js "Nome e email são obrigatórios"))] |})
  /\ rejected InvalidEmailFormat
     = ([], Normal {| status := 400;
                      json := JObject
                        [(js "sucesso", JBool false);
                         (js "mensagem",
                          JString (js "Formato de email inválido"))] |})
  /\ rejected NameTooShort
     = ([], Normal {| status := 400;
                      json := JObject
                        [(js "sucesso", JBool false);
                         (js "mensagem",
                          JString (js "Nome deve ter pelo menos 2 caracteres"))] |}).
Proof.
  unfold rejected, respond, failure. cbn [reason_text].
  repeat split; reflexivity.
Qed.

(** A non-empty string is truthy. *)
Lemma truthy_string s : s <> [] -> ToBoolean (JString s) = true.
Proof. destruct s; [congruence | reflexivity]. Qed.

(** A string of white space does not have the shape of an address. *)
Lemma blank_is_no_email s :
  trim s = [] -> emailRegex_test (JString s) = Normal false.
Proof.
  intros H. apply RenderFacts.trim_nil in H.
  rewrite HandlerFacts.emailRegex_test_string.
  destruct (RegExp.test emailRegex s) eqn:E; auto.
  apply emailRegex_shape in E.
  destruct E as (l & d & t & -> & Hl & _ & _ & Fl & _).
  destruct l as [|c l]; [congruence|].
  inversion Fl as [|? ? [Hc _] _]; subst.
  cbn in H. rewrite Hc in H. discriminate.
Qed.

(** C1 (as amended): when the value of [nome] or of [email] is falsy
    (the field is absent, or holds null, the empty string, false or 0) the
    run is the MissingField rejection: status 400 with the text 'Nome e
    email são obrigatórios', and the provider is not called.  A non-empty
    string of white space is not taken for missing: as [email] (with a
    present [nome]) it is rejected as InvalidEmailFormat, as [nome] (with a
    well-formed [email]) as NameTooShort. *)
Theorem C1_missing_field env req nome email :
  Get (body req) (js "nome") = Normal nome ->
  Get (body req) (js "email") = Normal email ->
  (ToBoolean nome = false \/ ToBoolean email = false ->
   send_welcome env req = rejected MissingField
   /\ send_invoked (send_welcome env req) = false)
  /\ (forall s, s <> [] -> trim s = [] ->
      (email = JString s -> ToBoolean nome = true ->
       send_welcome env req = rejected InvalidEmailFormat)
      /\ (nome = JString s -> emailRegex_test email = Normal true ->
          send_welcome env req = rejected NameTooShort)).
Proof.
  intros Hn He. split.
  - intros H.
    assert (V : exists rest, violations nome email = MissingField :: rest).
    { unfold violations. cbn [found guard].
      destruct H as [-> | ->]; cbn [negb orb];
        rewrite ?orb_true_r; eauto. }
    destruct V as [rest V].
    rewrite (HandlerFacts.first_violation env req Hn He V).
    split; reflexivity.
  - intros s Hs Ht. split.
    + intros -> Tn.
      eapply HandlerFacts.first_violation; [exact Hn | exact He |].
      unfold violations. cbn [found guard].
      rewrite Tn, (truthy_string Hs), (blank_is_no_email s Ht).
      reflexivity.
    + intros -> R.
      eapply HandlerFacts.first_violation; [exact Hn | exact He |].
      unfold violations. cbn [found guard call_trim].
      rewrite (truthy_string Hs), (HandlerFacts.emailRegex_truthy email R), R, Ht.
      reflexivity.
Qed.

Lemma C1_missing_field_witness :
  send_welcome (stub_env (sent (js "abc123")))
    (submission JUndefined (JString (js "ana@example.com")))
  = rejected MissingField
  /\ send_invoked
       (send_welcome (stub_env (sent (js "abc123")))
          (submission JUndefined (JString (js "ana@example.com")))) = false.
Proof.
  refine (proj1 (C1_missing_field (stub_env (sent (js "abc123")))
                   (submission JUndefined (JString (js "ana@example.com")))
                   (nome := JUndefined)
                   (email := JString (js "ana@example.com")) _ _) _).
  - vm_compute; reflexivity.
  - vm_compute; reflexivity.
  - left. reflexivity.
Defined.

(** C1 as stated fails: a [nome] of three spaces is empty after
    trimming, yet the answer is the NameTooShort text; an [email] of
    three spaces is answered with the InvalidEmailFormat text. *)
Lemma C1_blank_fields_counterexample :
  trim (js "   ") = []
  /\ send_welcome (stub_env (sent (js "abc123")))
       (submission (JString (js "   ")) (JString (js "a@b.co")))
     = rejected NameTooShort
  /\ send_welcome (stub_env (sent (js "abc123")))
       (submission (JString (js "Ana")) (JString (js "   ")))
     = rejected InvalidEmailFormat
  /\ rejected NameTooShort <> rejected MissingField
  /\ rejected InvalidEmailFormat <> rejected MissingField.
Proof.
  split; [reflexivity|].
  split; [vm_compute; reflexivity|].
  split; [vm_compute; reflexivity|].
  split; intros H; apply HandlerFacts.rejected_injective in H; discriminate.
Qed.

(** An [email] that cannot be converted to text (an object with an own
    [toString], or an array that holds one) violates no rule: past the
    presence check [emailRegex.test(email)] throws, no rule is tried after
    it, and the answer is the server error. *)
Lemma unprintable_email env req nome email x :
  Get (body req) (js "nome") = Normal nome ->
  Get (body req) (js "email") = Normal email ->
  ToBoolean nome = true ->
  ToBoolean email = true ->
  ToString email = Throw x ->
  violations nome email = []
  /\ send_welcome env req = ([logged_fault x], Normal server_error).
Proof.
  intros Hn He Tn Te T.
  assert (R : emailRegex_test email = Throw x)
    by (unfold emailRegex_test; rewrite T; reflexivity).
  split.
  - unfold violations. cbn [found guard]. rewrite Tn, Te, R. reflexivity.
  - unfold_handler. rewrite Hn, He, Tn, Te, R. reflexivity.
Qed.

Example unprintable_email_example env :
  violations (JString (js "Ana"))
    (JObject [(js "toString", JNumber (integer 1))]) = []
  /\ send_welcome env
       (submission (JString (js "Ana"))
          (JObject [(js "toString", JNumber (integer 1))]))
     = ([logged_fault
           (TypeError (js "Cannot convert object to primitive value"))],
        Normal server_error).
Proof.
  apply unprintable_email; vm_compute; reflexivity.
Qed.

(** An array [email] that holds a Number of 21 digits or more reads with
    that Number in exponent form: ["a@b", 1.5e21] reads as
    a@b,1.5e+21, which has the shape of an address, so that the run goes
    past the three rules and breaks at [email.trim()]. *)
Example exponent_form_in_email :
  ToString (JArray [JString (js "a@b"); JNumber (Finite false 15 20)])
  = Normal (js "a@b,1.5e+21")
  /\ violations (JString (js "Ana"))
       (JArray [JString (js "a@b"); JNumber (Finite false 15 20)]) = []
  /\ send_welcome (stub_env (sent (js "abc123")))
       (submission (JString (js "Ana"))
          (JArray [JString (js "a@b"); JNumber (Finite false 15 20)]))
     = ([announce (js "Ana") (js "a@b,1.5e+21");
         logged_fault (TypeError (js "trim is not a function"))],
        Normal server_error).
Proof. repeat split; vm_compute; reflexivity. Qed.

(** C2: the rules are tried in the order MissingField,
    InvalidEmailFormat, NameTooShort, and the run is decided by the first
    one the input violates, whatever else it violates: the response is
    the 400 carrying that rule's text and nothing more.  A rule whose
    guard throws is not violated, and none is tried after it: the
    violations are those found up to there. *)
Theorem C2_first_failure_wins env req nome email reason rest :
  Get (body req) (js "nome") = Normal nome ->
  Get (body req) (js "email") = Normal email ->
  violations nome email = reason :: rest ->
  send_welcome env req = rejected reason.
Proof. apply HandlerFacts.first_violation. Qed.

Lemma C2_first_failure_wins_witness :
  violations (JString []) (JString (js "foo"))
  = [MissingField; InvalidEmailFormat; NameTooShort]
  /\ violations (JString (js "a")) (JString (js "foo"))
     = [InvalidEmailFormat; NameTooShort]
  /\ send_welcome (stub_env (sent (js "abc123")))
       (submission (JString []) (JString (js "foo")))
     = rejected MissingField
  /\ send_welcome (stub_env (sent (js "abc123")))
       (submission (JString (js "a")) (JString (js "foo")))
     = rejected InvalidEmailFormat.
Proof.
  split; [vm_compute; reflexivity|].
  split; [vm_compute; reflexivity|].
  split.
  - refine (C2_first_failure_wins (stub_env (sent (js "abc123")))
              (submission (JString []) (JString (js "foo")))
              (nome := JString []) (email := JString (js "foo"))
              (rest := [InvalidEmailFormat; NameTooShort]) _ _ _);
      vm_compute; reflexivity.
  - refine (C2_first_failure_wins (stub_env (sent (js "abc123")))
              (submission (JString (js "a")) (JString (js "foo")))
              (nome := JString (js "a")) (email := JString (js "foo"))
              (rest := [NameTooShort]) _ _ _);
      vm_compute; reflexivity.
Defined.

(** C3: past the presence check, the pattern accepts the [email] exactly
    when it has the shape local@domain.suffix (three non-empty runs free
    of white space and [@]), and the run is the InvalidEmailFormat
    rejection (status 400, 'Formato de email inválido') exactly when it
    has not; "foo@bar" is refused and "a@b.co" accepted. *)
Theorem C3_email_format env req nome e :
  Get (body req) (js "nome") = Normal nome ->
  Get (body req) (js "email") = Normal (JString e) ->
  ToBoolean nome = true ->
  ToBoolean (JString e) = true ->
  (emailRegex_test (JString e) = Normal true <-> email_shape e)
  /\ (send_welcome env req = rejected InvalidEmailFormat
      <-> ~ email_shape e)
  /\ emailRegex_test (JString (js "foo@bar")) = Normal false
  /\ emailRegex_test (JString (js "a@b.co")) = Normal true.
Proof.
  intros Hn He Tn Te.
  assert (S : emailRegex_test (JString e) = Normal true <-> email_shape e).
  { rewrite HandlerFacts.emailRegex_test_string, <- emailRegex_shape.
    split; [intros H; now injection H | intros ->; reflexivity]. }
  split; [exact S|]. split; [|split; vm_compute; reflexivity].
  split.
  - intros H.
    destruct (HandlerFacts.rejected_violation env req
                (reason := InvalidEmailFormat) Hn He H) as [rest V].
    unfold violations in V. cbn [found guard] in V.
    rewrite Tn, Te in V. cbn [negb orb] in V.
    rewrite <- S. rewrite HandlerFacts.emailRegex_test_string in *.
    destruct (RegExp.test emailRegex e); [|discriminate].
    cbn [negb] in V.
    destruct (call_trim nome) as [trimmed|]; [|discriminate].
    destruct (List.length trimmed <? 2); discriminate.
  - intros H.
    eapply HandlerFacts.first_violation; [exact Hn | exact He |].
    unfold violations. cbn [found guard].
    rewrite Tn, Te. cbn [negb orb].
    rewrite HandlerFacts.emailRegex_test_string in *.
    destruct (RegExp.test emailRegex e); [|reflexivity].
    exfalso. apply H, S. reflexivity.
Qed.

Lemma C3_email_format_witness :
  send_welcome (stub_env (sent (js "abc123")))
    (submission (JString (js "Ana")) (JString (js "foo@bar")))
  = rejected InvalidEmailFormat
  <-> ~ email_shape (js "foo@bar").
Proof.
  refine (proj1 (proj2 (C3_email_format (stub_env (sent (js "abc123")))
                   (submission (JString (js "Ana")) (JString (js "foo@bar")))
                   (nome := JString (js "Ana")) (e := js "foo@bar")
                   _ _ _ _))); vm_compute; reflexivity.
Defined.

(** The response of the [catch] block, spelled out. *)
Lemma server_error_response :
  server_error
  = {| status := 500;
       json := JObject
         [(js "sucesso", JBool false);
          (js "mensagem",
           JString (js "Erro interno do servidor ao enviar email"))] |}.
Proof. reflexivity. Qed.

(** C4: past the presence and the format checks, a [nome] whose trimmed
    length is below 2 makes the run the NameTooShort rejection (status
    400, 'Nome deve ter pelo menos 2 caracteres'), and only such a [nome]
    does; " a " is rejected, "Al" goes on to the provider. *)
Theorem C4_name_too_short env req s email :
  Get (body req) (js "nome") = Normal (JString s) ->
  Get (body req) (js "email") = Normal email ->
  ToBoolean (JString s) = true ->
  ToBoolean email = true ->
  emailRegex_test email = Normal true ->
  (List.length (trim s) < 2 <-> send_welcome env req = rejected NameTooShort)
  /\ send_welcome env (submission (JString (js " a ")) (JString (js "a@b.co")))
     = rejected NameTooShort
  /\ send_invoked
       (send_welcome env (submission (JString (js "Al")) (JString (js "a@b.co"))))
     = true.
Proof.
  intros Hn He Tn Te R.
  assert (V : violations (JString s) email
              = if List.length (trim s) <? 2 then [NameTooShort] else []).
  { unfold violations. cbn [found guard call_trim].
    rewrite Tn, Te, R. reflexivity. }
  split; [split|split].
  - intros L. apply Nat.ltb_lt in L. rewrite L in V.
    exact (HandlerFacts.first_violation env req Hn He V).
  - intros H.
    destruct (HandlerFacts.rejected_violation env req Hn He H) as [rest V'].
    rewrite V in V'. apply Nat.ltb_lt.
    destruct (List.length (trim s) <? 2); [reflexivity | discriminate].
  - refine (HandlerFacts.first_violation env
              (submission (JString (js " a ")) (JString (js "a@b.co")))
              (nome := JString (js " a ")) (email := JString (js "a@b.co"))
              (rest := []) _ _ _); vm_compute; reflexivity.
  - assert (An : Get (body (submission (JString (js "Al"))
                              (JString (js "a@b.co")))) (js "nome")
                 = Normal (JString (js "Al"))) by (vm_compute; reflexivity).
    assert (Ae : Get (body (submission (JString (js "Al"))
                              (JString (js "a@b.co")))) (js "email")
                 = Normal (JString (js "a@b.co"))) by (vm_compute; reflexivity).
    assert (Av : violations (JString (js "Al")) (JString (js "a@b.co")) = [])
      by (vm_compute; reflexivity).
    destruct (@HandlerFacts.validated_sends env _ _ _ An Ae Av) as [rest E].
    unfold send_invoked. rewrite E. reflexivity.
Qed.

Lemma C4_name_too_short_witness :
  List.length (trim (js " a ")) < 2
  <-> send_welcome (stub_env (sent (js "abc123")))
        (submission (JString (js " a ")) (JString (js "ana@example.com")))
      = rejected NameTooShort.
Proof.
  refine (proj1 (C4_name_too_short (stub_env (sent (js "abc123")))
                   (submission (JString (js " a "))
                      (JString (js "ana@example.com")))
                   (s := js " a ") (email := JString (js "ana@example.com"))
                   _ _ _ _ _)); vm_compute; reflexivity.
Defined.

(** Only a rejection answers 400. *)
Lemma status_400_is_rejection env req r :
  response_of (send_welcome env req) = Some r ->
  status r = 400 ->
  exists nome email reason rest,
    Get (body req) (js "nome") = Normal nome
    /\ Get (body req) (js "email") = Normal email
    /\ violations nome email = reason :: rest.
Proof.
  intros H S.
  destruct (HandlerFacts.status_cases env req) as (t & r' & E & C).
  rewrite E in H. cbn in H. injection H as ->.
  destruct C as [C|[C|C]]; [congruence | congruence | exact C].
Qed.

(** C7: when the input violates a rule, the run is the rejection for the
    first rule violated, under every template and provider: it is the 400
    response alone, with an empty trace, so that the provider is not
    called and the outcome owes nothing to the template.  The violations
    are those found before any guard throws; an input whose [email]
    cannot be converted to text has none past the presence check, and is
    answered with the server error. *)
Theorem C7_rejection_sends_nothing env req nome email :
  Get (body req) (js "nome") = Normal nome ->
  Get (body req) (js "email") = Normal email ->
  violations nome email <> [] ->
  exists reason,
    In reason (violations nome email)
    /\ (forall env', send_welcome env' req = rejected reason)
    /\ trace_of (send_welcome env req) = []
    /\ send_invoked (send_welcome env req) = false
    /\ option_map status (response_of (send_welcome env req)) = Some 400.
Proof.
  intros Hn He V.
  destruct (violations nome email) as [|reason rest] eqn:E; [congruence|].
  exists reason. split; [left; reflexivity|].
  assert (A : forall env', send_welcome env' req = rejected reason)
    by (intros env'; exact (HandlerFacts.first_violation env' req Hn He E)).
  split; [exact A|]. rewrite (A env). repeat split.
Qed.

Lemma C7_rejection_sends_nothing_witness :
  exists reason,
    In reason (violations (JString (js "A")) (JString (js "ana@example.com")))
    /\ (forall env',
          send_welcome env'
            (submission (JString (js "A")) (JString (js "ana@example.com")))
          = rejected reason)
    /\ trace_of
         (send_welcome (stub_env (sent (js "abc123")))
            (submission (JString (js "A")) (JString (js "ana@example.com"))))
       = []
    /\ send_invoked
         (send_welcome (stub_env (sent (js "abc123")))
            (submission (JString (js "A")) (JString (js "ana@example.com"))))
       = false
    /\ option_map status
         (response_of
            (send_welcome (stub_env (sent (js "abc123")))
               (submission (JString (js "A")) (JString (js "ana@example.com")))))
       = Some 400.
Proof.
  refine (C7_rejection_sends_nothing (stub_env (sent (js "abc123")))
            (submission (JString (js "A")) (JString (js "ana@example.com")))
            (nome := JString (js "A"))
            (email := JString (js "ana@example.com")) _ _ _).
  - vm_compute; reflexivity.
  - vm_compute; reflexivity.
  - vm_compute. discriminate.
Defined.

(** C10: a truthy [nome] that is not a string, with an [email] that
    passes the pattern, is not answered with a 400: [nome.trim()] throws a
    TypeError, the [catch] block logs it and answers the 500 server
    error, and the provider is not called. *)
Theorem C10_non_string_name env req nome email :
  Get (body req) (js "nome") = Normal nome ->
  Get (body req) (js "email") = Normal email ->
  ToBoolean nome = true ->
  (forall s, nome <> JString s) ->
  emailRegex_test email = Normal true ->
  response_of (send_welcome env req) = Some server_error
  /\ status server_error = 500
  /\ (exists what,
        trace_of (send_welcome env req)
        = [console_error_thrown (js "❌ Erro no servidor:") (TypeError what)])
  /\ send_invoked (send_welcome env req) = false
  /\ (forall reason, send_welcome env req <> rejected reason).
Proof.
  intros Hn He T NS R.
  rewrite (HandlerFacts.non_string_name env req Hn He T NS R).
  repeat split.
  - eexists. reflexivity.
  - intros reason H. unfold rejected in H. discriminate.
Qed.

Lemma C10_non_string_name_witness :
  response_of
    (send_welcome (stub_env (sent (js "abc123")))
       (submission (JNumber (integer 5)) (JString (js "ana@example.com"))))
  = Some server_error.
Proof.
  refine (proj1 (C10_non_string_name (stub_env (sent (js "abc123")))
                   (submission (JNumber (integer 5)) (JString (js "ana@example.com")))
                   (nome := JNumber (integer 5))
                   (email := JString (js "ana@example.com")) _ _ _ _ _)).
  - vm_compute; reflexivity.
  - vm_compute; reflexivity.
  - reflexivity.
  - intros s H. discriminate.
  - vm_compute; reflexivity.
Defined.

(* ================================================================== *)
(** * Dispatch *)
(* ================================================================== *)

(** C8: when the provider's call throws, or resolves to a value whose
    [error] is truthy, a validated submission is answered with the one
    fixed server error (status 500, sucesso false, 'Erro interno do
    servidor ao enviar email'), whatever the provider reported; what it
    reported goes to [console.error], as the [error] value and as the
    [Error] that the handler builds from its [message] (or as what
    converting that [message] to text throws). *)
Theorem C8_send_failure_is_opaque env req s e :
  Get (body req) (js "nome") = Normal (JString s) ->
  Get (body req) (js "email") = Normal (JString e) ->
  violations (JString s) (JString e) = [] ->
  (forall x,
     resend env (outgoing env s e) = Throw x ->
     send_welcome env req
     = ([announce s e; emails_send (outgoing env s e);
         console_error_thrown (js "❌ Erro no servidor:") x],
        Normal server_error))
  /\ (forall result err,
        resend env (outgoing env s e) = Normal result ->
        Get result (js "error") = Normal err ->
        ToBoolean err = true ->
        exists message,
          Get err (js "message") = Normal message /\
          send_welcome env req
          = ([announce s e; emails_send (outgoing env s e);
              console_error (js "❌ Erro ao enviar email:") err;
              console_error_thrown (js "❌ Erro no servidor:")
                (send_failure message)],
             Normal server_error)).
Proof.
  intros Hn He Hv. split.
  - intros x. exact (@HandlerFacts.provider_throws env req s e Hn He Hv x).
  - intros result err.
    exact (@HandlerFacts.provider_refuses env req s e Hn He Hv result err).
Qed.

Lemma C8_send_failure_is_opaque_witness :
  send_welcome (stub_env (Throw (Error (js "ECONNRESET api.resend.com"))))
    (submission (JString (js "Ana")) (JString (js "ana@example.com")))
  = ([announce (js "Ana") (js "ana@example.com");
      emails_send
        (outgoing (stub_env (Throw (Error (js "ECONNRESET api.resend.com"))))
           (js "Ana") (js "ana@example.com"));
      console_error_thrown (js "❌ Erro no servidor:")
        (Error (js "ECONNRESET api.resend.com"))],
     Normal server_error)
  /\ exists message,
       Get (JObject [(js "message", JString (js "API key is invalid"))])
         (js "message") = Normal message
       /\ send_welcome (stub_env (refused (js "API key is invalid")))
            (submission (JString (js "Ana")) (JString (js "ana@example.com")))
          = ([announce (js "Ana") (js "ana@example.com");
              emails_send
                (outgoing (stub_env (refused (js "API key is invalid")))
                   (js "Ana") (js "ana@example.com"));
              console_error (js "❌ Erro ao enviar email:")
                (JObject [(js "message", JString (js "API key is invalid"))]);
              console_error_thrown (js "❌ Erro no servidor:")
                (send_failure message)],
             Normal server_error).
Proof.
  split.
  - refine (proj1 (C8_send_failure_is_opaque
                     (stub_env (Throw (Error (js "ECONNRESET api.resend.com"))))
                     (submission (JString (js "Ana"))
                        (JString (js "ana@example.com")))
                     (s := js "Ana") (e := js "ana@example.com") _ _ _)
              (Error (js "ECONNRESET api.resend.com")) _).
    + vm_compute; reflexivity.
    + vm_compute; reflexivity.
    + vm_compute; reflexivity.
    + reflexivity.
  - refine (proj2 (C8_send_failure_is_opaque
                     (stub_env (refused (js "API key is invalid")))
                     (submission (JString (js "Ana"))
                        (JString (js "ana@example.com")))
                     (s := js "Ana") (e := js "ana@example.com") _ _ _)
              (JObject
                 [(js "data", JNull);
                  (js "error",
                   JObject [(js "message", JString (js "API key is invalid"))])])
              (JObject [(js "message", JString (js "API key is invalid"))])
              _ _ _).
    + vm_compute; reflexivity.
    + vm_compute; reflexivity.
    + vm_compute; reflexivity.
    + reflexivity.
    + vm_compute; reflexivity.
    + reflexivity.
Defined.

(** C9: when the provider resolves to a value with a falsy [error] and a
    [data] that carries [id], a validated submission is answered 200
    with sucesso true, a mensagem that contains the submitted name and
    emailId equal to the provider's id, for every id that has a text (a
    string, as the provider gives, among them); Ana at ana@example.com
    against a provider answering "abc123" gets exactly that.  An id that
    cannot be converted to text makes the success log line throw, and
    the answer is the server error. *)
Theorem C9_confirmation env req s e result data err id :
  Get (body req) (js "nome") = Normal (JString s) ->
  Get (body req) (js "email") = Normal (JString e) ->
  violations (JString s) (JString e) = [] ->
  resend env (outgoing env s e) = Normal result ->
  Get result (js "data") = Normal data ->
  Get result (js "error") = Normal err ->
  ToBoolean err = false ->
  Get data (js "id") = Normal id ->
  send_welcome env req
  = match ToString id with
    | Normal id_text =>
        ([announce s e; emails_send (outgoing env s e);
          console_log (js "✅ Email enviado com sucesso! ID: " ++ id_text)],
         Normal {| status := 200; json := confirmation s id |})
    | Throw x =>
        ([announce s e; emails_send (outgoing env s e); logged_fault x],
         Normal server_error)
    end
  /\ Get (confirmation s id) (js "sucesso") = Normal (JBool true)
  /\ Get (confirmation s id) (js "emailId") = Normal id
  /\ (exists text,
        Get (confirmation s id) (js "mensagem") = Normal (JString text)
        /\ includes text s = true)
  /\ option_map json
       (response_of
          (send_welcome (stub_env (sent (js "abc123")))
             (submission (JString (js "Ana")) (JString (js "ana@example.com")))))
     = Some (confirmation (js "Ana") (JString (js "abc123"))).
Proof.
  intros Hn He Hv H Hd Herr T Hid.
  split.
  { destruct (ToString id) as [id_text|x] eqn:Hx.
    - exact (@HandlerFacts.provider_accepts env req s e Hn He Hv
               result data err id id_text H Hd Herr T Hid Hx).
    - exact (@HandlerFacts.id_unprintable env req s e Hn He Hv
               result data err id x H Hd Herr T Hid Hx). }
  split; [vm_compute; reflexivity|].
  split; [vm_compute; reflexivity|].
  split; [|vm_compute; reflexivity].
  eexists. split; [vm_compute; reflexivity|].
  change (includes (js "Boas-vindas enviadas para " ++ s
                      ++ js "! Verifique seu email.") s = true).
  apply JsStringFacts.includes_middle.
Qed.

Lemma C9_confirmation_witness :
  send_welcome (stub_env (sent (js "abc123")))
    (submission (JString (js "Ana")) (JString (js "ana@example.com")))
  = ([announce (js "Ana") (js "ana@example.com");
      emails_send
        (outgoing (stub_env (sent (js "abc123")))
           (js "Ana") (js "ana@example.com"));
      console_log (js "✅ Email enviado com sucesso! ID: " ++ js "abc123")],
     Normal {| status := 200;
               json := confirmation (js "Ana") (JString (js "abc123")) |}).
Proof.
  refine (proj1 (C9_confirmation
                   (stub_env (sent (js "abc123")))
                   (submission (JString (js "Ana"))
                      (JString (js "ana@example.com")))
                   (s := js "Ana") (e := js "ana@example.com")
                   (result := JObject
                                [(js "data",
                                  JObject [(js "id", JString (js "abc123"))]);
                                 (js "error", JNull)])
                   (data := JObject [(js "id", JString (js "abc123"))])
                   (err := JNull) (id := JString (js "abc123"))
                   _ _ _ _ _ _ _ _)).
  - vm_compute; reflexivity.
  - vm_compute; reflexivity.
  - vm_compute; reflexivity.
  - reflexivity.
  - vm_compute; reflexivity.
  - vm_compute; reflexivity.
  - reflexivity.
  - vm_compute; reflexivity.
Defined.

(* ================================================================== *)
(** * Rendering *)
(* ================================================================== *)

Lemma placeholder_nonempty : placeholder <> [].
Proof. vm_compute. discriminate. Qed.

(** The call of the handler, for a name without [$]. *)
Lemma replace_Rendered subject value :
  no_dollar value = true ->
  Rendered placeholder value subject
    (replace_global subject placeholder value).
Proof.
  intros H. rewrite RenderFacts.replace_global_verbatim by assumption.
  apply RenderFacts.substitute_Rendered, placeholder_nonempty.
Qed.

(** A subject with one occurrence of the placeholder, rendered. *)
Lemma replace_single subject value :
  subject = before_first subject placeholder ++ placeholder
            ++ after_first subject placeholder ->
  includes (before_first subject placeholder ++ removelast placeholder)
    placeholder = false ->
  includes (after_first subject placeholder) placeholder = false ->
  no_dollar value = true ->
  replace_global subject placeholder value
  = before_first subject placeholder ++ value
    ++ after_first subject placeholder.
Proof.
  intros E Hb Ha Hd.
  rewrite RenderFacts.replace_global_verbatim by assumption.
  rewrite E at 1.
  rewrite RenderFacts.substitute_first
    by (assumption || apply placeholder_nonempty).
  now rewrite RenderFacts.substitute_none.
Qed.

Lemma texto_rendered value :
  no_dollar value = true ->
  replace_global mensagem_texto placeholder value
  = js "Olá, " ++ value ++ after_first mensagem_texto placeholder.
Proof.
  intros H.
  rewrite replace_single; try assumption; vm_compute; reflexivity.
Qed.

Lemma html_rendered value :
  no_dollar value = true ->
  replace_global mensagem_html placeholder value
  = before_first mensagem_html placeholder ++ value
    ++ after_first mensagem_html placeholder.
Proof.
  intros H.
  rewrite replace_single; try assumption; vm_compute; reflexivity.
Qed.

(** C5 (as amended): for a validated submission whose trimmed name has no
    [$], the message handed to the provider has as text and as HTML body
    the template's with every occurrence of the placeholder [{{nome}}]
    replaced by the trimmed name, and as subject the template's subject
    as it stands; 'Hi {{nome}}, {{nome}}!' with 'Sam' gives
    'Hi Sam, Sam!', where no placeholder is left. *)
Theorem C5_rendering env req s e :
  Get (body req) (js "nome") = Normal (JString s) ->
  Get (body req) (js "email") = Normal (JString e) ->
  violations (JString s) (JString e) = [] ->
  no_dollar (trim s) = true ->
  (exists rest,
     trace_of (send_welcome env req)
     = announce s e :: emails_send (outgoing env s e) :: rest)
  /\ send_subject (outgoing env s e) = assunto (mensagem env)
  /\ Rendered placeholder (trim s) (texto (mensagem env))
       (send_text (outgoing env s e))
  /\ Rendered placeholder (trim s) (html (mensagem env))
       (send_html (outgoing env s e))
  /\ send_text (outgoing (with_template greeting env) (js "Sam") e)
     = js "Hi Sam, Sam!"
  /\ includes (js "Hi Sam, Sam!") placeholder = false.
Proof.
  intros Hn He Hv Hd.
  split; [exact (@HandlerFacts.validated_sends env req s e Hn He Hv)|].
  split; [reflexivity|].
  split; [apply replace_Rendered, Hd|].
  split; [apply replace_Rendered, Hd|].
  split; vm_compute; reflexivity.
Qed.

Lemma C5_rendering_witness :
  Rendered placeholder (trim (js " Sam "))
    (texto (mensagem (with_template greeting (stub_env (sent (js "abc123"))))))
    (send_text
       (outgoing (with_template greeting (stub_env (sent (js "abc123"))))
          (js " Sam ") (js "sam@example.com"))).
Proof.
  refine (proj1 (proj2 (proj2
            (C5_rendering
               (with_template greeting (stub_env (sent (js "abc123"))))
               (submission (JString (js " Sam "))
                  (JString (js "sam@example.com")))
               (s := js " Sam ") (e := js "sam@example.com") _ _ _ _))));
    vm_compute; reflexivity.
Defined.

(** C5 as stated fails on the subject: the handler passes the template's
    subject on as it is, so a placeholder in it stays. *)
Lemma C5_subject_counterexample :
  exists args rest,
    trace_of
      (send_welcome (with_template greeting (stub_env (sent (js "abc123"))))
         (submission (JString (js "Sam")) (JString (js "sam@example.com"))))
    = announce (js "Sam") (js "sam@example.com") :: emails_send args :: rest
    /\ send_subject args = js "Oi {{nome}}"
    /\ includes (send_subject args) placeholder = true
    /\ send_text args = js "Hi Sam, Sam!".
Proof.
  eexists. eexists. split; [vm_compute; reflexivity|].
  repeat split; vm_compute; reflexivity.
Qed.

(** The replacement patterns of [String.prototype.replace] are live in the
    name: [$&] brings the placeholder back, [$$] shrinks to one [$]. *)
Example dollar_patterns_expand :
  replace_global (js "Hi {{nome}}!") placeholder (js "$&")
  = js "Hi {{nome}}!"
  /\ replace_global (js "Hi {{nome}}!") placeholder (js "A$$B")
     = js "Hi A$B!".
Proof. split; vm_compute; reflexivity. Qed.

(** A text written with another token is left as it is. *)
Example other_token_untouched :
  replace_global (js "Hi {{name}}, {{name}}!") placeholder (js "Sam")
  = js "Hi {{name}}, {{name}}!".
Proof. vm_compute; reflexivity. Qed.

(** C6 (as amended): on the repository's template, for a validated
    submission whose trimmed name has no [$] and does not contain the
    placeholder, the message handed to the provider has no placeholder
    left in its subject, its text or its HTML body. *)
Theorem C6_no_placeholder_left env req s e :
  mensagem env = mensagem_js ->
  Get (body req) (js "nome") = Normal (JString s) ->
  Get (body req) (js "email") = Normal (JString e) ->
  violations (JString s) (JString e) = [] ->
  no_dollar (trim s) = true ->
  includes (trim s) placeholder = false ->
  (exists rest,
     trace_of (send_welcome env req)
     = announce s e :: emails_send (outgoing env s e) :: rest)
  /\ includes (send_subject (outgoing env s e)) placeholder = false
  /\ includes (send_text (outgoing env s e)) placeholder = false
  /\ includes (send_html (outgoing env s e)) placeholder = false.
Proof.
  intros Hm Hn He Hv Hd Hi.
  split; [exact (@HandlerFacts.validated_sends env req s e Hn He Hv)|].
  unfold outgoing. cbn [send_subject send_text send_html]. rewrite Hm.
  cbn [assunto texto html mensagem_js].
  split; [vm_compute; reflexivity|]. split.
  - rewrite texto_rendered by assumption.
    apply RenderFacts.includes_insert; try assumption; vm_compute; reflexivity.
  - rewrite html_rendered by assumption.
    apply RenderFacts.includes_insert; try assumption; vm_compute; reflexivity.
Qed.

Lemma C6_no_placeholder_left_witness :
  includes
    (send_html (outgoing (stub_env (sent (js "abc123")))
                  (js "Ana") (js "ana@example.com")))
    placeholder = false.
Proof.
  refine (proj2 (proj2 (proj2
            (C6_no_placeholder_left
               (stub_env (sent (js "abc123")))
               (submission (JString (js "Ana"))
                  (JString (js "ana@example.com")))
               (s := js "Ana") (e := js "ana@example.com")
               _ _ _ _ _ _)))); vm_compute; reflexivity.
Defined.

(** C6 as stated fails: a name that is the placeholder text passes
    validation and is put in verbatim, so the text and the HTML body
    handed to the provider contain the placeholder. *)
Lemma C6_name_is_placeholder_counterexample :
  violations (JString (js "{{nome}}")) (JString (js "ana@example.com")) = []
  /\ exists args rest,
       trace_of
         (send_welcome (stub_env (sent (js "abc123")))
            (submission (JString (js "{{nome}}"))
               (JString (js "ana@example.com"))))
       = announce (js "{{nome}}") (js "ana@example.com")
         :: emails_send args :: rest
       /\ includes (send_text args) placeholder = true
       /\ includes (send_html args) placeholder = true.
Proof.
  split; [vm_compute; reflexivity|].
  eexists. eexists. split; [vm_compute; reflexivity|].
  split; vm_compute; reflexivity.
Qed.

(* ================================================================== *)
(** * Every run takes one of the paths *)
(* ================================================================== *)

Module PathFacts.

Lemma call_trim_string v t : call_trim v = Normal t -> exists s, v = JString s.
Proof. destruct v; cbn; try discriminate; eauto. Qed.

Lemma Get_throws_together v k k' x :
  Get v k = Throw x -> Get v k' = Throw x.
Proof. destruct v; cbn; try discriminate; auto. Qed.

(** What it takes to violate no rule. *)
Lemma no_violation nome email :
  violations nome email = [] ->
  violates MissingField nome email = false
  /\ ((exists x, emailRegex_test email = Throw x)
      \/ (emailRegex_test email = Normal true
          /\ ((exists x, call_trim nome = Throw x)
              \/ exists s, nome = JString s
                           /\ (List.length (trim s) <? 2) = false))).
Proof.
  unfold violations, violates. cbn [found guard].
  destruct (negb (ToBoolean nome) || negb (ToBoolean email));
    [discriminate|].
  intros V. split; [reflexivity|].
  destruct (emailRegex_test email) as [[|]|x]; cbn [negb] in V;
    [|discriminate|eauto].
  right. split; [reflexivity|].
  destruct (call_trim nome) as [trimmed|x] eqn:T; [|eauto].
  right. destruct (call_trim_string nome T) as [s ->].
  cbn [call_trim] in T. injection T as <-.
  exists s. split; [reflexivity|].
  destruct (List.length (trim s) <? 2); [discriminate | reflexivity].
Qed.

(** The handler's run is an [Outcome]. *)
Lemma run_outcome env req : Outcome env req (send_welcome env req).
Proof.
  destruct (Get (body req) (js "nome")) as [nome|x] eqn:Hn.
  2:{ replace (send_welcome env req)
        with ([logged_fault x], @Normal Response server_error).
      - now apply Out_no_body.
      - unfold_handler. rewrite Hn. reflexivity. }
  destruct (HandlerFacts.Get_defined _ (js "nome") (js "email") Hn)
    as [email He].
  destruct (violations nome email) as [|reason rest] eqn:V.
  2:{ rewrite (HandlerFacts.first_violation env req Hn He V).
      eapply Out_rejected; eassumption. }
  destruct (no_violation nome email V) as [G1 [[x R]|[R [[x Tn]|(s & -> & G3)]]]].
  { replace (send_welcome env req)
      with ([logged_fault x], @Normal Response server_error).
    - eapply Out_email_unprintable; eassumption.
    - unfold violates in G1. cbn [guard] in G1.
      unfold_handler. rewrite Hn, He, G1, R. reflexivity. }
  { replace (send_welcome env req)
      with ([logged_fault x], @Normal Response server_error).
    - eapply Out_name_not_string; eassumption.
    - unfold violates in G1. cbn [guard] in G1.
      unfold_handler. rewrite Hn, He, G1, R. cbn [negb]. rewrite Tn.
      reflexivity. }
  assert (P : exists text, ToString email = Normal text).
  { unfold emailRegex_test in R. destruct (ToString email); [eauto|discriminate]. }
  destruct P as [text P].
  destruct (call_trim email) as [dest|x] eqn:Te.
  2:{ replace (send_welcome env req)
        with ([announce s text; logged_fault x],
              @Normal Response server_error).
      - eapply Out_email_not_string; eassumption.
      - unfold violates in G1. cbn [guard] in G1.
        unfold_handler. rewrite Hn, He, G1, R.
        cbn [negb call_trim ToString]. rewrite G3, P, Te. reflexivity. }
  destruct (call_trim_string email Te) as [e ->].
  destruct (resend env (outgoing env s e)) as [result|x] eqn:Rs.
  2:{ rewrite (@HandlerFacts.provider_throws env req s e Hn He V x Rs).
      eapply Out_provider_throws; eassumption. }
  destruct (Get result (js "data")) as [data|x] eqn:Hd.
  2:{ rewrite (@HandlerFacts.result_unreadable env req s e Hn He V
                 result x Rs Hd).
      eapply Out_result_unreadable; eassumption. }
  destruct (HandlerFacts.Get_defined _ (js "data") (js "error") Hd)
    as [err Herr].
  destruct (ToBoolean err) eqn:T.
  { destruct (@HandlerFacts.provider_refuses env req s e Hn He V
                result err Rs Herr T) as (message & Hm & ->).
    eapply Out_refused; eassumption. }
  destruct (Get data (js "id")) as [id|x] eqn:Hid.
  2:{ rewrite (@HandlerFacts.data_unreadable env req s e Hn He V
                 result data err x Rs Hd Herr T Hid).
      eapply Out_no_data; eassumption. }
  destruct (ToString id) as [id_text|x] eqn:Hx.
  2:{ rewrite (@HandlerFacts.id_unprintable env req s e Hn He V
                 result data err id x Rs Hd Herr T Hid Hx).
      eapply Out_id_unprintable; eassumption. }
  rewrite (@HandlerFacts.provider_accepts env req s e Hn He V
             result data err id id_text Rs Hd Herr T Hid Hx).
  eapply Out_confirmed; eassumption.
Qed.

End PathFacts.

(** Go through the paths of the run of [req]. *)
Ltac paths env req m :=
  pose proof (PathFacts.run_outcome env req) as O;
  remember (send_welcome env req) as m eqn:Em; clear Em;
  destruct O.

Ltac same_fields Hn He :=
  repeat match goal with
  | H : Get _ (js "nome") = _ |- _ =>
      tryif constr_eq H Hn then fail else
        (rewrite Hn in H; first [discriminate H | injection H as H])
  | H : Get _ (js "email") = _ |- _ =>
      tryif constr_eq H He then fail else
        (rewrite He in H; first [discriminate H | injection H as H])
  end; subst.

(* ================================================================== *)
(** * What every run does *)
(* ================================================================== *)

(** X1: whatever the request and whatever the provider does, the handler
    ends with a response and lets no exception out, and the status is
    200, 400 or 500. *)
Theorem X1_always_answers env req :
  exists r,
    response_of (send_welcome env req) = Some r
    /\ (status r = 200 \/ status r = 400 \/ status r = 500).
Proof.
  paths env req m; eexists; (split; [reflexivity|]); cbn; auto.
Qed.

(** What every response body carries. *)
Lemma response_contract env req :
  exists r text,
    response_of (send_welcome env req) = Some r
    /\ Get (json r) (js "sucesso") = Normal (JBool (status r =? 200))
    /\ Get (json r) (js "mensagem") = Normal (JString text)
    /\ (status r <> 200 -> Get (json r) (js "emailId") = Normal JUndefined).
Proof.
  paths env req m;
    try (exists server_error; eexists; split; [reflexivity|];
         repeat split; vm_compute; reflexivity).
  - eexists; exists (reason_text reason). split; [reflexivity|].
    repeat split; vm_compute; reflexivity.
  - eexists; eexists. split; [reflexivity|].
    split; [vm_compute; reflexivity|].
    split; [vm_compute; reflexivity|].
    intros Hs. cbn in Hs. congruence.
Qed.

(** X2: every response body is an object whose [sucesso] is a boolean,
    true exactly when the status is 200, and whose [mensagem] is a
    string; [emailId] is there only on a 200. *)
Theorem X2_response_contract env req :
  exists r text,
    response_of (send_welcome env req) = Some r
    /\ Get (json r) (js "sucesso") = Normal (JBool (status r =? 200))
    /\ Get (json r) (js "mensagem") = Normal (JString text)
    /\ (status r <> 200 -> Get (json r) (js "emailId") = Normal JUndefined).
Proof. apply response_contract. Qed.

(** X3: the provider is called exactly when [nome] and [email] are both
    strings that violate no rule. *)
Theorem X3_provider_called_iff env req nome email :
  Get (body req) (js "nome") = Normal nome ->
  Get (body req) (js "email") = Normal email ->
  (send_invoked (send_welcome env req) = true
   <-> exists s e,
         nome = JString s /\ email = JString e
         /\ violations nome email = []).
Proof.
  intros Hn He.
  paths env req m; same_fields Hn He; unfold send_invoked; cbn [trace_of fst];
    unfold rejected, logged_fault, announce; cbn [existsb is_send orb fst];
    (split; [try discriminate | try reflexivity]); eauto;
    intros (s' & e' & E1 & E2 & V); subst;
    first [ congruence
          | match goal with
            | H : emailRegex_test _ = Throw _ |- _ => discriminate H
            | H : call_trim _ = Throw _ |- _ => discriminate H
            end ].
Qed.

Lemma X3_provider_called_iff_witness :
  send_invoked
    (send_welcome (stub_env (sent (js "abc123")))
       (submission (JString (js "Ana")) (JString (js "ana@example.com"))))
  = true
  <-> exists s e,
        JString (js "Ana") = JString s
        /\ JString (js "ana@example.com") = JString e
        /\ violations (JString (js "Ana")) (JString (js "ana@example.com")) = [].
Proof.
  refine (X3_provider_called_iff (stub_env (sent (js "abc123")))
            (submission (JString (js "Ana")) (JString (js "ana@example.com")))
            (nome := JString (js "Ana"))
            (email := JString (js "ana@example.com")) _ _);
    vm_compute; reflexivity.
Defined.

(** X4: no request makes the handler call the provider twice. *)
Theorem X4_at_most_one_send env req :
  sends (trace_of (send_welcome env req))
  = if send_invoked (send_welcome env req) then 1 else 0.
Proof.
  paths env req m; reflexivity.
Qed.

(** X5: a 200 is answered only after the provider was called and
    resolved to a value with a falsy [error] and a readable [data.id],
    and the [emailId] answered is that id. *)
Theorem X5_confirmed_only_after_send env req r :
  response_of (send_welcome env req) = Some r ->
  status r = 200 ->
  exists s e result data err id,
    Get (body req) (js "nome") = Normal (JString s)
    /\ Get (body req) (js "email") = Normal (JString e)
    /\ violations (JString s) (JString e) = []
    /\ resend env (outgoing env s e) = Normal result
    /\ Get result (js "data") = Normal data
    /\ Get result (js "error") = Normal err
    /\ ToBoolean err = false
    /\ Get data (js "id") = Normal id
    /\ json r = confirmation s id
    /\ send_invoked (send_welcome env req) = true.
Proof.
  pose proof (PathFacts.run_outcome env req) as O.
  destruct O; cbn [response_of snd]; intros E S;
    injection E as <-; try discriminate S.
  exists s, e, result, data, err, id. repeat split; assumption.
Qed.

Lemma X5_confirmed_only_after_send_witness :
  exists s e result data err id,
    Get (body (submission (JString (js "Ana"))
                 (JString (js "ana@example.com")))) (js "nome")
    = Normal (JString s)
    /\ Get (body (submission (JString (js "Ana"))
                    (JString (js "ana@example.com")))) (js "email")
       = Normal (JString e)
    /\ violations (JString s) (JString e) = []
    /\ resend (stub_env (sent (js "abc123")))
         (outgoing (stub_env (sent (js "abc123"))) s e) = Normal result
    /\ Get result (js "data") = Normal data
    /\ Get result (js "error") = Normal err
    /\ ToBoolean err = false
    /\ Get data (js "id") = Normal id
    /\ json (respond 200 (confirmation (js "Ana") (JString (js "abc123"))))
       = confirmation s id
    /\ send_invoked
         (send_welcome (stub_env (sent (js "abc123")))
            (submission (JString (js "Ana"))
               (JString (js "ana@example.com")))) = true.
Proof.
  refine (X5_confirmed_only_after_send (stub_env (sent (js "abc123")))
            (submission (JString (js "Ana")) (JString (js "ana@example.com")))
            (r := respond 200 (confirmation (js "Ana") (JString (js "abc123"))))
            _ _).
  - vm_compute; reflexivity.
  - reflexivity.
Defined.

(** X6: a 500 is answered exactly when the [catch] block ran, and then
    its log line closes the trace; a run that answers 200 or 400 logs no
    error at all. *)
Theorem X6_server_errors_are_logged env req :
  exists r,
    response_of (send_welcome env req) = Some r
    /\ (status r = 500 ->
        exists t x, trace_of (send_welcome env req) = t ++ [logged_fault x])
    /\ (status r <> 500 ->
        existsb is_error_log (trace_of (send_welcome env req)) = false).
Proof.
  paths env req m; eexists; (split; [reflexivity|]); cbn [trace_of fst];
    (split; [intros S | intros S]);
    try (exfalso; apply S; reflexivity);
    try (cbn in S; discriminate S);
    try reflexivity.
  all: first [ exists []; eexists; reflexivity
             | eexists [_]; eexists; reflexivity
             | eexists [_; _]; eexists; reflexivity
             | eexists [_; _; _]; eexists; reflexivity ].
Qed.

(** X7: when [nome] and [email] are strings, as a form posts them, the
    run either is a 400 rejection or calls the provider: no 500 is
    answered before the provider was tried. *)
Theorem X7_strings_are_rejected_or_sent env req s e :
  Get (body req) (js "nome") = Normal (JString s) ->
  Get (body req) (js "email") = Normal (JString e) ->
  (exists reason, send_welcome env req = rejected reason)
  \/ (violations (JString s) (JString e) = []
      /\ exists rest,
           trace_of (send_welcome env req)
           = announce s e :: emails_send (outgoing env s e) :: rest).
Proof.
  intros Hn He.
  destruct (violations (JString s) (JString e)) as [|reason rest] eqn:V.
  - right. split; [reflexivity|].
    exact (@HandlerFacts.validated_sends env req s e Hn He V).
  - left. exists reason.
    exact (HandlerFacts.first_violation env req Hn He V).
Qed.

Lemma X7_strings_are_rejected_or_sent_witness :
  (exists reason,
     send_welcome (stub_env (Throw (Error (js "down"))))
       (submission (JString (js "Ana")) (JString (js "ana@example.com")))
     = rejected reason)
  \/ (violations (JString (js "Ana")) (JString (js "ana@example.com")) = []
      /\ exists rest,
           trace_of
             (send_welcome (stub_env (Throw (Error (js "down"))))
                (submission (JString (js "Ana"))
                   (JString (js "ana@example.com"))))
           = announce (js "Ana") (js "ana@example.com")
             :: emails_send
                  (outgoing (stub_env (Throw (Error (js "down"))))
                     (js "Ana") (js "ana@example.com"))
             :: rest).
Proof.
  refine (X7_strings_are_rejected_or_sent
            (stub_env (Throw (Error (js "down"))))
            (submission (JString (js "Ana")) (JString (js "ana@example.com")))
            (s := js "Ana") (e := js "ana@example.com") _ _);
    vm_compute; reflexivity.
Defined.

(** X8: a request whose body is [undefined] or [null] is not answered
    with a 400: reading [nome] from it throws, and the answer is the 500
    server error, logged, without a call to the provider. *)
Theorem X8_no_body env req :
  body req = JUndefined \/ body req = JNull ->
  exists x,
    send_welcome env req = ([logged_fault x], Normal server_error)
    /\ send_invoked (send_welcome env req) = false.
Proof.
  intros B.
  assert (T : exists x, Get (body req) (js "nome") = Throw x)
    by (destruct B as [-> | ->]; eexists; reflexivity).
  destruct T as [x T]. exists x.
  assert (E : send_welcome env req = ([logged_fault x], Normal server_error))
    by (unfold_handler; rewrite T; reflexivity).
  rewrite E. split; reflexivity.
Qed.

Lemma X8_no_body_witness :
  exists x,
    send_welcome (stub_env (sent (js "abc123"))) {| body := JUndefined |}
    = ([logged_fault x], Normal server_error)
    /\ send_invoked
         (send_welcome (stub_env (sent (js "abc123"))) {| body := JUndefined |})
       = false.
Proof.
  refine (X8_no_body (stub_env (sent (js "abc123"))) {| body := JUndefined |} _).
  left. reflexivity.
Defined.

(** X9: a body that is an empty object or an array has neither field and
    is answered with the MissingField rejection. *)
Theorem X9_fieldless_body env req :
  body req = JObject [] \/ (exists l, body req = JArray l) ->
  send_welcome env req = rejected MissingField.
Proof.
  intros B.
  assert (Hn : Get (body req) (js "nome") = Normal JUndefined).
  { destruct B as [->|[l ->]]; reflexivity. }
  assert (He : Get (body req) (js "email") = Normal JUndefined).
  { destruct B as [->|[l ->]]; reflexivity. }
  eapply HandlerFacts.first_violation; [exact Hn | exact He |].
  vm_compute. reflexivity.
Qed.

Lemma X9_fieldless_body_witness :
  send_welcome (stub_env (sent (js "abc123"))) {| body := JArray [] |}
  = rejected MissingField.
Proof.
  refine (X9_fieldless_body (stub_env (sent (js "abc123")))
            {| body := JArray [] |} _).
  right. exists []. reflexivity.
Defined.

(* ================================================================== *)
(** * The validated address and the recipient *)
(* ================================================================== *)

Module AddressFacts.

Lemma plain_no_white_space l : Forall plain l -> no_white_space l = true.
Proof.
  unfold no_white_space. induction 1 as [|c l [Hc _] _ IH]; auto.
  cbn [forallb]. now rewrite Hc, IH.
Qed.

Lemma plain_no_at l : Forall plain l -> at_signs l = 0.
Proof.
  unfold at_signs. induction 1 as [|c l [_ Hc] _ IH]; auto.
  cbn [filter]. unfold unit_eqb at 1.
  destruct (N.eqb_spec 64 c) as [E|_]; [congruence | exact IH].
Qed.

Lemma no_white_space_app a b :
  no_white_space (a ++ b) = no_white_space a && no_white_space b.
Proof. apply forallb_app. Qed.

Lemma at_signs_app a b : at_signs (a ++ b) = at_signs a + at_signs b.
Proof. unfold at_signs. now rewrite filter_app, length_app. Qed.

Lemma trimStart_fixed s : no_white_space s = true -> trimStart s = s.
Proof.
  destruct s as [|c s]; auto. unfold no_white_space.
  cbn [forallb trimStart].
  intros H. apply andb_true_iff in H as [H _].
  apply negb_true_iff in H. now rewrite H.
Qed.

(** [trim] leaves a string without white space as it is. *)
Lemma trim_fixed s : no_white_space s = true -> trim s = s.
Proof.
  intros H. unfold trim, trimEnd. rewrite (trimStart_fixed s H).
  rewrite trimStart_fixed.
  - apply rev_involutive.
  - unfold no_white_space. now rewrite RenderFacts.forallb_rev.
Qed.

(** What the pattern demands of an address. *)
Lemma accepted_email e :
  emailRegex_test (JString e) = Normal true ->
  at_signs e = 1 /\ no_white_space e = true /\ 5 <= List.length e.
Proof.
  intros H. rewrite HandlerFacts.emailRegex_test_string in H.
  injection H as H. apply emailRegex_shape in H.
  destruct H as (l & d & t & -> & Hl & Hd & Ht & Fl & Fd & Ft).
  repeat split.
  - rewrite !at_signs_app.
    rewrite (plain_no_at Fl), (plain_no_at Fd), (plain_no_at Ft).
    reflexivity.
  - rewrite !no_white_space_app.
    rewrite (plain_no_white_space Fl), (plain_no_white_space Fd),
      (plain_no_white_space Ft).
    reflexivity.
  - rewrite !length_app.
    destruct l; [congruence|]. destruct d; [congruence|].
    destruct t; [congruence|]. cbn. lia.
Qed.

End AddressFacts.

(** X10: an [email] that passes the pattern has exactly one [@], no white
    space at all and at least five code units. *)
Theorem X10_accepted_email e :
  emailRegex_test (JString e) = Normal true ->
  at_signs e = 1 /\ no_white_space e = true /\ 5 <= List.length e.
Proof. apply AddressFacts.accepted_email. Qed.

Lemma X10_accepted_email_witness :
  at_signs (js "ana@example.com") = 1
  /\ no_white_space (js "ana@example.com") = true
  /\ 5 <= List.length (js "ana@example.com").
Proof.
  refine (X10_accepted_email (e := js "ana@example.com") _).
  vm_compute; reflexivity.
Defined.

(** X11: for a validated submission the one recipient handed to the
    provider is the [email] exactly as submitted: trimming it changes
    nothing, because the pattern admits no white space. *)
Theorem X11_recipient env req s e :
  Get (body req) (js "nome") = Normal (JString s) ->
  Get (body req) (js "email") = Normal (JString e) ->
  violations (JString s) (JString e) = [] ->
  (exists rest,
     trace_of (send_welcome env req)
     = announce s e :: emails_send (outgoing env s e) :: rest)
  /\ send_to (outgoing env s e) = [e].
Proof.
  intros Hn He V.
  split; [exact (@HandlerFacts.validated_sends env req s e Hn He V)|].
  destruct (HandlerFacts.validated_guards s e V) as (_ & G2 & _).
  destruct (AddressFacts.accepted_email G2) as (_ & W & _).
  unfold outgoing. cbn [send_to]. now rewrite AddressFacts.trim_fixed.
Qed.

Lemma X11_recipient_witness :
  send_to (outgoing (stub_env (sent (js "abc123")))
             (js "Ana") (js "ana@example.com"))
  = [js "ana@example.com"].
Proof.
  refine (proj2 (X11_recipient (stub_env (sent (js "abc123")))
                   (submission (JString (js "Ana"))
                      (JString (js "ana@example.com")))
                   (s := js "Ana") (e := js "ana@example.com") _ _ _));
    vm_compute; reflexivity.
Defined.

(* ================================================================== *)
(** * More on rendering *)
(* ================================================================== *)

Module ReplaceFacts.
Import JsStringFacts.

Lemma replace_scan_absent pat value subject :
  forall rest pos,
    includes rest pat = false ->
    replace_scan pat value subject pos 0 rest = rest.
Proof.
  induction rest as [|c rest IH]; intros pos H; auto.
  rewrite includes_cons in H. apply orb_false_iff in H as [H1 H2].
  cbn [replace_scan]. rewrite H1, IH; auto.
Qed.

Lemma replace_scan_skip pat value subject x :
  forall pos t,
    replace_scan pat value subject pos (List.length x) (x ++ t)
    = replace_scan pat value subject (pos + List.length x) 0 t.
Proof.
  induction x as [|c x IH]; intros pos t.
  - cbn [List.length app]. now rewrite Nat.add_0_r.
  - cbn [List.length app replace_scan]. rewrite IH. f_equal. lia.
Qed.

Lemma GetSubstitution_matched matched before after :
  GetSubstitution matched before after (js "$&") = matched.
Proof.
  change (js "$&") with [36%N; 38%N]. cbn. apply app_nil_r.
Qed.

(** With the replacement text [$&] every match is put back. *)
Lemma replace_scan_matched pat subject :
  pat <> [] ->
  forall n rest pos,
    List.length rest <= n ->
    replace_scan pat (js "$&") subject pos 0 rest = rest.
Proof.
  intros Hp. induction n as [|n IH]; intros rest pos L.
  - destruct rest; [reflexivity | cbn in L; lia].
  - destruct rest as [|c rest]; [reflexivity|].
    cbn [replace_scan].
    destruct (startsWith (c :: rest) pat) eqn:E.
    + apply startsWith_iff in E as [t E].
      destruct pat as [|p pat]; [congruence|].
      cbn [app] in E. injection E as -> ->.
      rewrite GetSubstitution_matched.
      cbn [List.length]. rewrite Nat.sub_succ, Nat.sub_0_r.
      rewrite replace_scan_skip, IH; [reflexivity|].
      cbn [List.length] in L. rewrite length_app in L. lia.
    + rewrite IH; [reflexivity|]. cbn [List.length] in L. lia.
Qed.

Lemma replace_global_matched subject pat :
  pat <> [] -> replace_global subject pat (js "$&") = subject.
Proof.
  intros Hp. unfold replace_global.
  apply replace_scan_matched with (n := List.length subject); auto.
Qed.

End ReplaceFacts.

(** X12: a text in which the pattern does not occur comes out of the
    replacement unchanged, whatever the replacement text is. *)
Theorem X12_absent_placeholder subject pat value :
  includes subject pat = false ->
  replace_global subject pat value = subject.
Proof. intros H. now apply ReplaceFacts.replace_scan_absent. Qed.

Lemma X12_absent_placeholder_witness :
  replace_global mensagem_assunto placeholder (js "$& Ana") = mensagem_assunto.
Proof.
  refine (X12_absent_placeholder mensagem_assunto placeholder (js "$& Ana") _).
  vm_compute; reflexivity.
Defined.

(** X13: a name that trims to [$&] passes the length rule and makes the
    text and the HTML body handed to the provider the template's own,
    placeholders included, under every template. *)
Theorem X13_dollar_ampersand env s e :
  trim s = js "$&" ->
  violates NameTooShort (JString s) (JString e) = false
  /\ send_text (outgoing env s e) = texto (mensagem env)
  /\ send_html (outgoing env s e) = html (mensagem env).
Proof.
  intros H. unfold outgoing, violates.
  cbn [guard call_trim send_text send_html].
  rewrite H. split; [reflexivity|].
  split; apply ReplaceFacts.replace_global_matched, placeholder_nonempty.
Qed.

Lemma X13_dollar_ampersand_witness :
  violates NameTooShort (JString (js " $& ")) (JString (js "ana@example.com"))
  = false
  /\ send_text (outgoing (stub_env (sent (js "abc123")))
                  (js " $& ") (js "ana@example.com"))
     = texto (mensagem (stub_env (sent (js "abc123"))))
  /\ send_html (outgoing (stub_env (sent (js "abc123")))
                  (js " $& ") (js "ana@example.com"))
     = html (mensagem (stub_env (sent (js "abc123")))).
Proof.
  refine (X13_dollar_ampersand (stub_env (sent (js "abc123")))
            (js " $& ") (js "ana@example.com") _).
  vm_compute; reflexivity.
Defined.

(** X14: when the text contains the placeholder and the replacement text
    has no [$], the result contains the replacement text as it was
    given: nothing in it is escaped. *)
Theorem X14_inserted_verbatim subject value :
  no_dollar value = true ->
  includes subject placeholder = true ->
  includes (replace_global subject placeholder value) value = true.
Proof.
  intros Hd Hi.
  rewrite RenderFacts.replace_global_verbatim by assumption.
  destruct (RenderFacts.first_occurrence subject placeholder_nonempty Hi)
    as (a & b & -> & Ha).
  rewrite RenderFacts.substitute_first
    by (assumption || apply placeholder_nonempty).
  apply JsStringFacts.includes_middle.
Qed.

Lemma X14_inserted_verbatim_witness :
  includes
    (replace_global mensagem_html placeholder (js "<img src=x onerror=alert(1)>"))
    (js "<img src=x onerror=alert(1)>") = true.
Proof.
  refine (X14_inserted_verbatim mensagem_html
            (js "<img src=x onerror=alert(1)>") _ _);
    vm_compute; reflexivity.
Defined.

(* ================================================================== *)
(** * The form script *)
(* ================================================================== *)

Module FrontendFacts.
Import Frontend.

Ltac unfold_script :=
  unfold enviarFormulario, try_catch_finally, mostrarMensagem, fetch,
    b_bind, b_eval, b_emit, read, write.

Lemma assigned_text_string s : assigned_text (JString s) = Normal s.
Proof. reflexivity. Qed.

(** The run when the reply can be read and shown. *)
Lemma run_reply network p resultado sucesso mensagem text :
  network (request_of p) = Normal (Normal resultado) ->
  Get resultado (js "sucesso") = Normal sucesso ->
  Get resultado (js "mensagem") = Normal mensagem ->
  assigned_text mensagem = Normal text ->
  enviarFormulario network p
  = ([preventDefault; log (js "📤 Enviando dados:") (dados p);
      fetch_call (request_of p);
      log (js "📥 Resposta recebida:") resultado],
     set_disabled false
       (if ToBoolean sucesso
        then form_reset (show mensagem (js "sucesso") (set_disabled true p))
        else show mensagem (js "erro") (set_disabled true p)),
     Normal tt).
Proof.
  intros N S M A. unfold request_of in N. unfold_script.
  change (dados (set_disabled true p)) with (dados p).
  rewrite N, S. destruct (ToBoolean sucesso); rewrite M, A; reflexivity.
Qed.

(** The run when it cannot. *)
Lemma run_failure network p x seen :
  unreadable network p x seen ->
  enviarFormulario network p
  = ([preventDefault; log (js "📤 Enviando dados:") (dados p);
      fetch_call (request_of p)]
     ++ seen ++ [error (js "❌ Erro na requisição:") x],
     set_disabled false
       (show (JString (js "Erro de conexão com o servidor")) (js "erro")
          (set_disabled true p)),
     Normal tt).
Proof.
  unfold unreadable, request_of. unfold_script.
  change (dados (set_disabled true p)) with (dados p).
  rewrite assigned_text_string.
  intros [[N ->]|[[N ->]|[(resultado & N & S & ->)
                         |(resultado & mensagem & N & M & A & ->)]]];
    rewrite N.
  - reflexivity.
  - reflexivity.
  - rewrite S. reflexivity.
  - destruct (HandlerFacts.Get_defined _ (js "mensagem") (js "sucesso") M)
      as [sucesso S].
    rewrite S. destruct (ToBoolean sucesso); rewrite M, A; reflexivity.
Qed.

(** Every run is of one of the two kinds. *)
Lemma run_cases network p :
  (exists resultado sucesso mensagem text,
     network (request_of p) = Normal (Normal resultado)
     /\ Get resultado (js "sucesso") = Normal sucesso
     /\ Get resultado (js "mensagem") = Normal mensagem
     /\ assigned_text mensagem = Normal text)
  \/ (exists x seen, unreadable network p x seen).
Proof.
  unfold unreadable.
  destruct (network (request_of p)) as [[resultado|x]|x] eqn:N.
  - destruct (Get resultado (js "sucesso")) as [sucesso|x] eqn:S.
    + destruct (HandlerFacts.Get_defined _ (js "sucesso") (js "mensagem") S)
        as [mensagem M].
      destruct (assigned_text mensagem) as [text|x] eqn:A.
      * left. eauto 8.
      * right. exists x. eexists. right; right; right. eauto 8.
    + right. exists x. eexists. right; right; left. eauto.
  - right. exists x, []. auto.
  - right. exists x, []. auto.
Qed.

End FrontendFacts.

Module PageFacts.
Import Frontend.

Lemma tidy_show texto tipo p : tidy p -> tidy (show texto tipo p).
Proof.
  unfold tidy. intros (D & C & T & P). cbn [show mensagensDiv timeouts created node].
  repeat split.
  - rewrite map_app. cbn [map node].
    apply NoDup_app; [exact D | repeat constructor; intros [] | ].
    intros n Hn [<-|[]]. apply in_map_iff in Hn as (d & E & Hd).
    rewrite Forall_forall in C. specialize (C d Hd). lia.
  - apply Forall_app. split.
    + eapply Forall_impl; [|exact C]. cbn. intros; lia.
    + repeat constructor.
  - apply Forall_app. split.
    + eapply Forall_impl; [|exact T]. cbn. intros d H.
      apply in_or_app. auto.
    + repeat constructor. cbn [node]. apply in_or_app. right. left. reflexivity.
  - apply Forall_app. split.
    + eapply Forall_impl; [|exact P]. cbn. intros; lia.
    + repeat constructor.
Qed.

Lemma tidy_set_disabled b p : tidy p <-> tidy (set_disabled b p).
Proof. reflexivity. Qed.

Lemma tidy_form_reset p : tidy p <-> tidy (form_reset p).
Proof. reflexivity. Qed.

Lemma filter_all {A} (f : A -> bool) l :
  Forall (fun x => f x = true) l -> filter f l = l.
Proof. induction 1; cbn; auto. now rewrite H, IHForall. Qed.

Lemma messages_after_timeout n p :
  mensagensDiv (timeout_fires n p)
  = filter (fun d => negb (Nat.eqb (node d) n)) (mensagensDiv p).
Proof.
  cbn [timeout_fires mensagensDiv]. unfold attached.
  destruct (existsb (fun d => node d =? n) (mensagensDiv p)) eqn:E; auto.
  symmetry. apply filter_all. apply Forall_forall. intros d Hd.
  destruct (node d =? n) eqn:F; auto.
  assert (X : existsb (fun d => node d =? n) (mensagensDiv p) = true)
    by (apply existsb_exists; eauto).
  congruence.
Qed.

Lemma tidy_timeout n p : tidy p -> tidy (timeout_fires n p).
Proof.
  intros (D & C & T & P). unfold tidy.
  rewrite messages_after_timeout. cbn [timeout_fires timeouts created].
  repeat split.
  - clear C T. induction (mensagensDiv p) as [|d l IH]; cbn; auto.
    inversion D; subst.
    destruct (negb (node d =? n)); cbn; auto.
    constructor; auto. intros H. apply in_map_iff in H as (d' & E & H).
    apply filter_In in H as [H _].
    match goal with N : ~ In _ _ |- _ => apply N end.
    apply in_map_iff. eauto.
  - apply Forall_forall. intros d Hd. apply filter_In in Hd as [Hd _].
    rewrite Forall_forall in C. auto.
  - apply Forall_forall. intros d Hd. apply filter_In in Hd as [Hd F].
    rewrite Forall_forall in T. apply filter_In. split; auto.
  - apply Forall_forall. intros t Ht. apply filter_In in Ht as [Ht _].
    rewrite Forall_forall in P. auto.
Qed.

End PageFacts.

(** X15: however the network answers, a run of [enviarFormulario] ends
    without an exception and with the button enabled again, has sent one
    request, carrying the two input values as they stand, and has
    appended one message whose removal is scheduled in 3000 ms. *)
Theorem X15_one_request_one_message network p :
  Frontend.completion_of (Frontend.enviarFormulario network p) = Normal tt
  /\ Frontend.enviarBtn_disabled
       (Frontend.page_after (Frontend.enviarFormulario network p)) = false
  /\ (exists tipo texto,
        Frontend.mensagensDiv
          (Frontend.page_after (Frontend.enviarFormulario network p))
        = Frontend.mensagensDiv p ++ [Frontend.shown p tipo texto])
  /\ Frontend.timeouts
       (Frontend.page_after (Frontend.enviarFormulario network p))
     = Frontend.timeouts p ++ [(Frontend.created p, 3000)]
  /\ filter Frontend.is_fetch
       (Frontend.events_of (Frontend.enviarFormulario network p))
     = [Frontend.fetch_call (Frontend.request_of p)]
  /\ Frontend.payload (Frontend.request_of p)
     = JObject [(js "nome", JString (Frontend.nomeInput_value p));
                (js "email", JString (Frontend.emailInput_value p))].
Proof.
  destruct (FrontendFacts.run_cases network p)
    as [(resultado & sucesso & mensagem & text & N & S & M & A)
       | (x & seen & U)].
  - rewrite (FrontendFacts.run_reply network p N S M A).
    unfold Frontend.completion_of, Frontend.page_after, Frontend.events_of.
    cbn [fst snd].
    destruct (ToBoolean sucesso); repeat split; try reflexivity;
      eexists; eexists; reflexivity.
  - rewrite (FrontendFacts.run_failure U).
    unfold Frontend.completion_of, Frontend.page_after, Frontend.events_of.
    cbn [fst snd].
    repeat split; try reflexivity; try (eexists; eexists; reflexivity).
    destruct U as [[_ ->]|[[_ ->]|[(resultado & _ & _ & ->)
                                  |(resultado & mensagem & _ & _ & _ & ->)]]];
      reflexivity.
Qed.

(** X16: when the reply is a value with readable properties, the message
    appended shows its [mensagem], of class 'mensagem sucesso' when its
    [sucesso] is truthy and 'mensagem erro' when not; the form is reset
    in the first case and left as it is in the second, and no error is
    logged.  That is so for every [mensagem] that can be made the text
    of an element; for one that cannot, the assignment throws and the run
    is that of a connection error. *)
Theorem X16_reply_shown network p resultado sucesso mensagem :
  network (Frontend.request_of p) = Normal (Normal resultado) ->
  Get resultado (js "sucesso") = Normal sucesso ->
  Get resultado (js "mensagem") = Normal mensagem ->
  match Frontend.assigned_text mensagem with
  | Normal _ =>
      Frontend.mensagensDiv
        (Frontend.page_after (Frontend.enviarFormulario network p))
      = Frontend.mensagensDiv p
        ++ [Frontend.shown p
              (if ToBoolean sucesso then js "sucesso" else js "erro") mensagem]
      /\ Frontend.nomeInput_value
           (Frontend.page_after (Frontend.enviarFormulario network p))
         = (if ToBoolean sucesso then Frontend.nomeInput_defaultValue p
            else Frontend.nomeInput_value p)
      /\ Frontend.emailInput_value
           (Frontend.page_after (Frontend.enviarFormulario network p))
         = (if ToBoolean sucesso then Frontend.emailInput_defaultValue p
            else Frontend.emailInput_value p)
      /\ Frontend.events_of (Frontend.enviarFormulario network p)
         = [Frontend.preventDefault;
            Frontend.log (js "📤 Enviando dados:") (Frontend.dados p);
            Frontend.fetch_call (Frontend.request_of p);
            Frontend.log (js "📥 Resposta recebida:") resultado]
  | Throw x =>
      Frontend.mensagensDiv
        (Frontend.page_after (Frontend.enviarFormulario network p))
      = Frontend.mensagensDiv p
        ++ [Frontend.shown p (js "erro")
              (JString (js "Erro de conexão com o servidor"))]
      /\ Frontend.nomeInput_value
           (Frontend.page_after (Frontend.enviarFormulario network p))
         = Frontend.nomeInput_value p
      /\ Frontend.emailInput_value
           (Frontend.page_after (Frontend.enviarFormulario network p))
         = Frontend.emailInput_value p
      /\ Frontend.events_of (Frontend.enviarFormulario network p)
         = [Frontend.preventDefault;
            Frontend.log (js "📤 Enviando dados:") (Frontend.dados p);
            Frontend.fetch_call (Frontend.request_of p);
            Frontend.log (js "📥 Resposta recebida:") resultado;
            Frontend.error (js "❌ Erro na requisição:") x]
  end.
Proof.
  intros N S M. destruct (Frontend.assigned_text mensagem) as [text|x] eqn:A.
  - rewrite (FrontendFacts.run_reply network p N S M A).
    unfold Frontend.page_after, Frontend.events_of. cbn [fst snd].
    destruct (ToBoolean sucesso); repeat split; reflexivity.
  - assert (U : Frontend.unreadable network p x
                  [Frontend.log (js "📥 Resposta recebida:") resultado]).
    { right; right; right. exists resultado, mensagem. auto. }
    rewrite (FrontendFacts.run_failure U).
    repeat split; reflexivity.
Qed.

Lemma X16_reply_shown_witness :
  Frontend.mensagensDiv
    (Frontend.page_after
       (Frontend.enviarFormulario
          (fun _ => Normal (Normal (failure (js "Formato de email inválido"))))
          Frontend.sample_page))
  = Frontend.mensagensDiv Frontend.sample_page
    ++ [Frontend.shown Frontend.sample_page
          (if ToBoolean (JBool false) then js "sucesso" else js "erro")
          (JString (js "Formato de email inválido"))].
Proof.
  refine (proj1 (X16_reply_shown
                   (fun _ => Normal (Normal
                      (failure (js "Formato de email inválido"))))
                   Frontend.sample_page
                   (resultado := failure (js "Formato de email inválido"))
                   (sucesso := JBool false)
                   (mensagem := JString (js "Formato de email inválido"))
                   _ _ _)).
  - reflexivity.
  - vm_compute; reflexivity.
  - vm_compute; reflexivity.
Defined.

(** X17: when [fetch] rejects, when [response.json()] rejects, or when
    the value read is [null] or [undefined], the message appended is
    'Erro de conexão com o servidor' of class 'mensagem erro', the error
    is logged last, and the inputs keep their values. *)
Theorem X17_connection_error network p x seen :
  Frontend.unreadable network p x seen ->
  Frontend.mensagensDiv
    (Frontend.page_after (Frontend.enviarFormulario network p))
  = Frontend.mensagensDiv p
    ++ [Frontend.shown p (js "erro")
          (JString (js "Erro de conexão com o servidor"))]
  /\ Frontend.nomeInput_value
       (Frontend.page_after (Frontend.enviarFormulario network p))
     = Frontend.nomeInput_value p
  /\ Frontend.emailInput_value
       (Frontend.page_after (Frontend.enviarFormulario network p))
     = Frontend.emailInput_value p
  /\ Frontend.events_of (Frontend.enviarFormulario network p)
     = [Frontend.preventDefault;
        Frontend.log (js "📤 Enviando dados:") (Frontend.dados p);
        Frontend.fetch_call (Frontend.request_of p)]
       ++ seen ++ [Frontend.error (js "❌ Erro na requisição:") x].
Proof.
  intros U. rewrite (FrontendFacts.run_failure U).
  repeat split; reflexivity.
Qed.

Lemma X17_connection_error_witness :
  Frontend.mensagensDiv
    (Frontend.page_after
       (Frontend.enviarFormulario
          (fun _ => Throw (TypeError (js "Failed to fetch")))
          Frontend.sample_page))
  = Frontend.mensagensDiv Frontend.sample_page
    ++ [Frontend.shown Frontend.sample_page (js "erro")
          (JString (js "Erro de conexão com o servidor"))].
Proof.
  refine (proj1 (X17_connection_error
                   (network := fun _ => Throw (TypeError (js "Failed to fetch")))
                   (p := Frontend.sample_page)
                   (x := TypeError (js "Failed to fetch")) (seen := []) _)).
  left. split; reflexivity.
Defined.

Module TimerFacts.
Import Frontend.

Lemma filter_comm {A} (f g : A -> bool) l :
  filter f (filter g l) = filter g (filter f l).
Proof.
  induction l as [|x l IH]; cbn; auto.
  destruct (f x) eqn:F, (g x) eqn:G; cbn; rewrite ?F, ?G, IH; reflexivity.
Qed.

Lemma filter_idem {A} (f : A -> bool) l : filter f (filter f l) = filter f l.
Proof.
  induction l as [|x l IH]; cbn; auto.
  destruct (f x) eqn:F; cbn; rewrite ?F, IH; reflexivity.
Qed.

(** The callback without its guard: removing an element that is not
    there removes nothing. *)
Lemma timeout_fires_filter n p :
  timeout_fires n p
  = {| nomeInput_value := nomeInput_value p;
       emailInput_value := emailInput_value p;
       nomeInput_defaultValue := nomeInput_defaultValue p;
       emailInput_defaultValue := emailInput_defaultValue p;
       enviarBtn_disabled := enviarBtn_disabled p;
       mensagensDiv :=
         filter (fun d => negb (Nat.eqb (node d) n)) (mensagensDiv p);
       timeouts := filter (fun t => negb (Nat.eqb (fst t) n)) (timeouts p);
       created := created p |}.
Proof.
  pose proof (PageFacts.messages_after_timeout n p) as H.
  cbn [timeout_fires mensagensDiv] in H.
  unfold timeout_fires. rewrite H. reflexivity.
Qed.

Lemma timeouts_commute n m p :
  timeout_fires n (timeout_fires m p) = timeout_fires m (timeout_fires n p).
Proof.
  rewrite !timeout_fires_filter.
  cbn [nomeInput_value emailInput_value nomeInput_defaultValue
       emailInput_defaultValue enviarBtn_disabled mensagensDiv timeouts
       created].
  f_equal; apply filter_comm.
Qed.

Lemma timeout_idempotent n p :
  timeout_fires n (timeout_fires n p) = timeout_fires n p.
Proof.
  rewrite !timeout_fires_filter.
  cbn [nomeInput_value emailInput_value nomeInput_defaultValue
       emailInput_defaultValue enviarBtn_disabled mensagensDiv timeouts
       created].
  f_equal; apply filter_idem.
Qed.

(** Appending an element and running its callback gives the list back. *)
Lemma remove_appended (l : list MensagemDiv) d :
  Forall (fun d' => node d' < node d) l ->
  filter (fun d' => negb (Nat.eqb (node d') (node d))) (l ++ [d]) = l.
Proof.
  intros H. rewrite filter_app. cbn [filter].
  rewrite Nat.eqb_refl. cbn [negb]. rewrite app_nil_r.
  apply PageFacts.filter_all. eapply Forall_impl; [|exact H].
  cbn. intros d' L. apply negb_true_iff, Nat.eqb_neq. lia.
Qed.

Lemma remove_scheduled (l : list (nat * nat)) n delay :
  Forall (fun t => fst t < n) l ->
  filter (fun t => negb (Nat.eqb (fst t) n)) (l ++ [(n, delay)]) = l.
Proof.
  intros H. rewrite filter_app. cbn [filter fst].
  rewrite Nat.eqb_refl. cbn [negb]. rewrite app_nil_r.
  apply PageFacts.filter_all. eapply Forall_impl; [|exact H].
  cbn. intros t L. apply negb_true_iff, Nat.eqb_neq. lia.
Qed.

End TimerFacts.

(** X18: on a tidy page, once the timeout of the message that a run
    appended has fired, the messages and the pending timeouts are what
    they were before the run. *)
Theorem X18_message_goes_away network p :
  Frontend.tidy p ->
  Frontend.mensagensDiv
    (Frontend.timeout_fires (Frontend.created p)
       (Frontend.page_after (Frontend.enviarFormulario network p)))
  = Frontend.mensagensDiv p
  /\ Frontend.timeouts
       (Frontend.timeout_fires (Frontend.created p)
          (Frontend.page_after (Frontend.enviarFormulario network p)))
     = Frontend.timeouts p.
Proof.
  intros (_ & C & _ & P).
  rewrite PageFacts.messages_after_timeout.
  cbn [Frontend.timeout_fires Frontend.timeouts].
  assert (E : exists tipo texto,
             Frontend.mensagensDiv
               (Frontend.page_after (Frontend.enviarFormulario network p))
             = Frontend.mensagensDiv p ++ [Frontend.shown p tipo texto]
             /\ Frontend.timeouts
                  (Frontend.page_after (Frontend.enviarFormulario network p))
                = Frontend.timeouts p ++ [(Frontend.created p, 3000)]).
  { destruct (FrontendFacts.run_cases network p)
      as [(resultado & sucesso & mensagem & text & N & S & M & A)
       | (x & seen & U)].
    - rewrite (FrontendFacts.run_reply network p N S M A).
      unfold Frontend.page_after. cbn [fst snd].
      destruct (ToBoolean sucesso); eexists; eexists; split; reflexivity.
    - rewrite (FrontendFacts.run_failure U).
      eexists; eexists; split; reflexivity. }
  destruct E as (tipo & texto & -> & ->). split.
  - apply (@TimerFacts.remove_appended (Frontend.mensagensDiv p)
             (Frontend.shown p tipo texto)). exact C.
  - apply TimerFacts.remove_scheduled. exact P.
Qed.

Lemma X18_message_goes_away_witness :
  Frontend.mensagensDiv
    (Frontend.timeout_fires (Frontend.created Frontend.sample_page)
       (Frontend.page_after
          (Frontend.enviarFormulario
             (fun _ => Throw (TypeError (js "Failed to fetch")))
             Frontend.sample_page)))
  = Frontend.mensagensDiv Frontend.sample_page.
Proof.
  refine (proj1 (X18_message_goes_away
                   (fun _ => Throw (TypeError (js "Failed to fetch")))
                   (p := Frontend.sample_page) _)).
  unfold Frontend.tidy. cbn. repeat split; constructor.
Defined.

(** X19: tidiness is kept by a run of [enviarFormulario] and by the
    firing of any timeout: every message on the page keeps a pending
    removal, so none is left for good. *)
Theorem X19_tidy_is_kept network p n :
  Frontend.tidy p ->
  Frontend.tidy (Frontend.page_after (Frontend.enviarFormulario network p))
  /\ Frontend.tidy (Frontend.timeout_fires n p).
Proof.
  intros T. split; [|now apply PageFacts.tidy_timeout].
  destruct (FrontendFacts.run_cases network p)
    as [(resultado & sucesso & mensagem & text & N & S & M & A)
       | (x & seen & U)].
  - rewrite (FrontendFacts.run_reply network p N S M A).
    unfold Frontend.page_after. cbn [fst snd].
    apply PageFacts.tidy_set_disabled.
    destruct (ToBoolean sucesso).
    + apply PageFacts.tidy_form_reset, PageFacts.tidy_show.
      now apply PageFacts.tidy_set_disabled.
    + apply PageFacts.tidy_show. now apply PageFacts.tidy_set_disabled.
  - rewrite (FrontendFacts.run_failure U).
    unfold Frontend.page_after. cbn [fst snd].
    apply PageFacts.tidy_set_disabled, PageFacts.tidy_show.
    now apply PageFacts.tidy_set_disabled.
Qed.

Lemma X19_tidy_is_kept_witness :
  Frontend.tidy
    (Frontend.page_after
       (Frontend.enviarFormulario
          (fun _ => Throw (TypeError (js "Failed to fetch")))
          Frontend.sample_page))
  /\ Frontend.tidy (Frontend.timeout_fires 0 Frontend.sample_page).
Proof.
  refine (X19_tidy_is_kept
            (fun _ => Throw (TypeError (js "Failed to fetch")))
            (p := Frontend.sample_page) 0 _).
  unfold Frontend.tidy. cbn. repeat split; constructor.
Defined.

(** X20: the removal callbacks do not depend on their order, and one
    that fires again, or for a message that is gone, changes nothing. *)
Theorem X20_timeouts_commute n m p :
  Frontend.timeout_fires n (Frontend.timeout_fires m p)
  = Frontend.timeout_fires m (Frontend.timeout_fires n p)
  /\ Frontend.timeout_fires n (Frontend.timeout_fires n p)
     = Frontend.timeout_fires n p
  /\ Frontend.attached n (Frontend.timeout_fires n p) = false.
Proof.
  split; [apply TimerFacts.timeouts_commute|].
  split; [apply TimerFacts.timeout_idempotent|].
  unfold Frontend.attached. rewrite PageFacts.messages_after_timeout.
  destruct (existsb _ _) eqn:E; auto.
  apply existsb_exists in E as (d & Hd & F).
  apply filter_In in Hd as [_ G]. rewrite F in G. discriminate.
Qed.

(* ================================================================== *)
(** * The form and the handler together *)
(* ================================================================== *)

(** X21: what the form sends is a body with two string fields, and when
    the reply that reaches the script carries the [sucesso] and the
    [mensagem] of the handler's response to it, the page shows the
    handler's [mensagem], as 'mensagem sucesso' with a reset form exactly
    on a 200 and as 'mensagem erro' with the inputs kept otherwise. *)
Theorem X21_form_shows_the_answer env network p resultado :
  network (Frontend.request_of p) = Normal (Normal resultado) ->
  (forall r,
     response_of
       (send_welcome env {| body := Frontend.payload (Frontend.request_of p) |})
     = Some r ->
     Get resultado (js "sucesso") = Get (json r) (js "sucesso")
     /\ Get resultado (js "mensagem") = Get (json r) (js "mensagem")) ->
  exists r text,
    response_of
      (send_welcome env
         (submission (JString (Frontend.nomeInput_value p))
            (JString (Frontend.emailInput_value p))))
    = Some r
    /\ Get (json r) (js "mensagem") = Normal (JString text)
    /\ Frontend.mensagensDiv
         (Frontend.page_after (Frontend.enviarFormulario network p))
       = Frontend.mensagensDiv p
         ++ [Frontend.shown p
               (if status r =? 200 then js "sucesso" else js "erro")
               (JString text)]
    /\ Frontend.nomeInput_value
         (Frontend.page_after (Frontend.enviarFormulario network p))
       = (if status r =? 200 then Frontend.nomeInput_defaultValue p
          else Frontend.nomeInput_value p).
Proof.
  intros N H.
  change {| body := Frontend.payload (Frontend.request_of p) |}
    with (submission (JString (Frontend.nomeInput_value p))
            (JString (Frontend.emailInput_value p))) in H.
  destruct (response_contract env
              (submission (JString (Frontend.nomeInput_value p))
                 (JString (Frontend.emailInput_value p))))
    as (r & text & R & S & M & _).
  destruct (H r R) as [HS HM]. rewrite S in HS. rewrite M in HM.
  exists r, text. split; [exact R|]. split; [exact M|].
  rewrite (FrontendFacts.run_reply network p N HS HM
             (FrontendFacts.assigned_text_string text)).
  unfold Frontend.page_after. cbn [fst snd ToBoolean].
  destruct (status r =? 200); split; reflexivity.
Qed.

Lemma X21_form_shows_the_answer_witness :
  exists r text,
    response_of
      (send_welcome (stub_env (sent (js "abc123")))
         (submission (JString (Frontend.nomeInput_value Frontend.sample_page))
            (JString (Frontend.emailInput_value Frontend.sample_page))))
    = Some r
    /\ Get (json r) (js "mensagem") = Normal (JString text)
    /\ Frontend.mensagensDiv
         (Frontend.page_after
            (Frontend.enviarFormulario
               (fun _ => Normal (Normal
                  (confirmation (js "Ana") (JString (js "abc123")))))
               Frontend.sample_page))
       = Frontend.mensagensDiv Frontend.sample_page
         ++ [Frontend.shown Frontend.sample_page
               (if status r =? 200 then js "sucesso" else js "erro")
               (JString text)]
    /\ Frontend.nomeInput_value
         (Frontend.page_after
            (Frontend.enviarFormulario
               (fun _ => Normal (Normal
                  (confirmation (js "Ana") (JString (js "abc123")))))
               Frontend.sample_page))
       = (if status r =? 200
          then Frontend.nomeInput_defaultValue Frontend.sample_page
          else Frontend.nomeInput_value Frontend.sample_page).
Proof.
  refine (X21_form_shows_the_answer
            (stub_env (sent (js "abc123")))
            (fun _ => Normal (Normal
               (confirmation (js "Ana") (JString (js "abc123")))))
            Frontend.sample_page
            (resultado := confirmation (js "Ana") (JString (js "abc123")))
            _ _).
  - reflexivity.
  - intros r R. vm_compute in R. injection R as <-.
    split; vm_compute; reflexivity.
Defined.

(* ================================================================== *)
(** * What is accepted *)
(* ================================================================== *)

Lemma long_name_is_truthy s :
  (List.length (trim s) <? 2) = false -> ToBoolean (JString s) = true.
Proof. destruct s; [discriminate | reflexivity]. Qed.

(** X22: two strings pass the three rules exactly when the [email] has
    the shape local@domain.suffix and the trimmed [nome] has at least
    two code units. *)
Theorem X22_accepted_iff s e :
  violations (JString s) (JString e) = []
  <-> email_shape e /\ 2 <= List.length (trim s).
Proof.
  rewrite <- emailRegex_shape.
  split.
  - intros V. destruct (HandlerFacts.validated_guards s e V) as (_ & G2 & G3).
    rewrite HandlerFacts.emailRegex_test_string in G2. injection G2 as G2.
    apply Nat.ltb_ge in G3. auto.
  - intros [R L]. apply Nat.ltb_ge in L.
    assert (R' : emailRegex_test (JString e) = Normal true).
    { rewrite HandlerFacts.emailRegex_test_string, R. reflexivity. }
    unfold violations. cbn [found guard call_trim].
    rewrite (long_name_is_truthy s L),
      (HandlerFacts.emailRegex_truthy (JString e) R'), R', L.
    reflexivity.
Qed.

(** X23: an [email] that is not a string but reads as a well-formed
    address (a one-element array, say) passes the pattern; with a valid
    [nome] the run announces the sending, with the text the [email]
    converts to, and then breaks at [email.trim()]: the answer is the 500
    server error and the provider is not called. *)
Theorem X23_non_string_email env req s email :
  Get (body req) (js "nome") = Normal (JString s) ->
  Get (body req) (js "email") = Normal email ->
  (List.length (trim s) <? 2) = false ->
  emailRegex_test email = Normal true ->
  (forall e, email <> JString e) ->
  exists text,
    ToString email = Normal text
    /\ send_welcome env req
       = ([announce s text;
           logged_fault (TypeError (js "trim is not a function"))],
          Normal server_error)
    /\ send_invoked (send_welcome env req) = false.
Proof.
  intros Hn He L R NS.
  destruct (ToString email) as [text|x] eqn:T.
  2:{ unfold emailRegex_test in R. rewrite T in R. discriminate R. }
  exists text. split; [reflexivity|].
  assert (E : send_welcome env req
              = ([announce s text;
                  logged_fault (TypeError (js "trim is not a function"))],
                 Normal server_error)).
  { unfold_handler. rewrite Hn, He.
    rewrite (long_name_is_truthy s L), (HandlerFacts.emailRegex_truthy email R), R.
    cbn [negb orb call_trim]. rewrite L. rewrite T.
    unfold announce, logged_fault. cbn [ToString].
    destruct email; try reflexivity.
    exfalso. eapply NS. reflexivity. }
  rewrite E. split; reflexivity.
Qed.

Lemma X23_non_string_email_witness :
  exists text,
    ToString (JArray [JString (js "a@b.co")]) = Normal text
    /\ send_welcome (stub_env (sent (js "abc123")))
         (submission (JString (js "Ana")) (JArray [JString (js "a@b.co")]))
       = ([announce (js "Ana") text;
           logged_fault (TypeError (js "trim is not a function"))],
          Normal server_error)
    /\ send_invoked
         (send_welcome (stub_env (sent (js "abc123")))
            (submission (JString (js "Ana")) (JArray [JString (js "a@b.co")])))
       = false.
Proof.
  refine (X23_non_string_email (stub_env (sent (js "abc123")))
            (submission (JString (js "Ana")) (JArray [JString (js "a@b.co")]))
            (s := js "Ana") (email := JArray [JString (js "a@b.co")])
            _ _ _ _ _).
  - vm_compute; reflexivity.
  - vm_compute; reflexivity.
  - vm_compute; reflexivity.
  - vm_compute; reflexivity.
  - intros e H. discriminate.
Defined.
